(** * Cohort form view and account settings model

    A shallow embedding of two JavaScript modules of the LMS front end:

    - [lms/static/js/student_account/models/account_settings_models.js],
      the [AccountSettingsModel] Backbone model;
    - the cohort form view [edx.groups.CohortFormView], a Backbone view
      that validates a cohort form and saves the cohort.

    JavaScript values are represented by the inductive type [value];
    strings are sequences of code units below 256; the numbers that occur
    (identifiers and results of [parseInt]) are the doubles that are
    integers, the two infinities and [NaN].  The
    view is a record that is threaded through its methods; the effects a
    method has on the page, on the network and on the deferred object of
    [saveForm] are recorded in order as a list of [event]s. *)

From Stdlib Require Import List String Ascii ZArith Bool Lia PeanoNat.
From Stdlib Require DecimalString DecimalPos.
Import ListNotations.
Open Scope string_scope.
Open Scope list_scope.
Open Scope Z_scope.

(** ** JavaScript values *)

#[local] Set Warnings "-register-all".

Inductive value : Type :=
| VUndefined
| VNull
| VBool (b : bool)
| VNum (n : Z)
| VNaN
| VInfinity (negative : bool)
| VStr (s : string)
| VArray (items : list value)
| VObject (props : list (string * value)).

(** ToBoolean: what [if (x)], [!x] and [x ? a : b] test. *)
Definition truthy (v : value) : bool :=
  match v with
  | VUndefined | VNull | VNaN => false
  | VBool b => b
  | VNum n => negb (n =? 0)
  | VStr s => negb (s =? "")%string
  | VInfinity _ | VArray _ | VObject _ => true
  end.

(** [x === p] where one side is a primitive value.  Arrays and objects are
    compared by reference in JavaScript; every strict comparison of the two
    modules has a number, a string literal or [null] on one side, and an
    array or object is never identical to one of those. *)
Definition strict_eq (x p : value) : bool :=
  match x, p with
  | VUndefined, VUndefined => true
  | VNull, VNull => true
  | VBool a, VBool b => Bool.eqb a b
  | VNum a, VNum b => a =? b
  | VInfinity a, VInfinity b => Bool.eqb a b
  | VStr a, VStr b => (a =? b)%string
  | _, _ => false
  end.

Definition is_undefined (v : value) : bool :=
  match v with VUndefined => true | _ => false end.

(** A value that is a string or [undefined], as [val()] of jQuery returns
    and as the cohort's [name] attribute is. *)
Definition of_string (o : option string) : value :=
  match o with Some s => VStr s | None => VUndefined end.

(** [a == b] for two operands that are each a string or [undefined]. *)
Definition loose_eq_string (a b : option string) : bool :=
  match a, b with
  | Some x, Some y => (x =? y)%string
  | None, None => true
  | _, _ => false
  end.

(** Exceptions: the only one the view can raise is the TypeError of a
    method call on [undefined]. *)
Inductive exception : Type := TypeError.

Inductive result (A : Type) : Type :=
| Ok (a : A)
| Throw (e : exception).
Arguments Ok {A} a.
Arguments Throw {A} e.

(** ** String primitives *)

(** WhiteSpace and LineTerminator code units below 256: TAB, LF, VT, FF,
    CR, SP and NBSP. *)
Definition is_whitespace (c : ascii) : bool :=
  let n := nat_of_ascii c in
  ((n =? 9) || (n =? 10) || (n =? 11) || (n =? 12) || (n =? 13)
   || (n =? 32) || (n =? 160))%nat.

Fixpoint trim_start (s : string) : string :=
  match s with
  | EmptyString => EmptyString
  | String c r => if is_whitespace c then trim_start r else s
  end.

Fixpoint trim_end (s : string) : string :=
  match s with
  | EmptyString => EmptyString
  | String c r =>
      match trim_end r with
      | EmptyString => if is_whitespace c then EmptyString else String c EmptyString
      | r' => String c r'
      end
  end.

(** [String.prototype.trim] *)
Definition trim (s : string) : string := trim_end (trim_start s).

(** [s.split(sep)] for a separator of one character. *)
Fixpoint split (sep : ascii) (s : string) : list string :=
  match s with
  | EmptyString => [EmptyString]
  | String c r =>
      if Ascii.eqb c sep then EmptyString :: split sep r
      else match split sep r with
           | h :: t => String c h :: t
           | [] => [String c EmptyString]
           end
  end.

(** Value of a character as a digit, for radices up to 16. *)
Definition digit_value (c : ascii) : option Z :=
  let n := Z.of_nat (nat_of_ascii c) in
  if (48 <=? n) && (n <=? 57) then Some (n - 48)
  else if (97 <=? n) && (n <=? 102) then Some (n - 87)
  else if (65 <=? n) && (n <=? 70) then Some (n - 55)
  else None.

(** The longest prefix of [s] made of digits of the radix. *)
Fixpoint take_digits (radix : Z) (s : string) : list Z :=
  match s with
  | EmptyString => []
  | String c r =>
      match digit_value c with
      | Some d => if d <? radix then d :: take_digits radix r else []
      | None => []
      end
  end.

Definition digits_value (radix : Z) (ds : list Z) : Z :=
  fold_left (fun acc d => acc * radix + d) ds 0.

(** The sign of the number that [parseInt] reads, and the text after it. *)
Definition strip_sign (s : string) : Z * string :=
  match s with
  | String c r =>
      if Ascii.eqb c "-" then (-1, r)
      else if Ascii.eqb c "+" then (1, r)
      else (1, s)
  | EmptyString => (1, s)
  end.

(** The radix that [parseInt] uses when none is given, and the text after
    the prefix [0x] or [0X]. *)
Definition strip_prefix (s : string) : Z * string :=
  match s with
  | String c (String d r) =>
      if Ascii.eqb c "0" && (Ascii.eqb d "x" || Ascii.eqb d "X") then (16, r)
      else (10, s)
  | _ => (10, s)
  end.

(** The Number value for a mathematical integer: the nearest double.  A
    magnitude below 2^53 is a double; a larger one keeps its 53 leading
    bits, rounded to the nearest value and to the even one of two nearest
    values, and gives an infinity when the rounded magnitude reaches
    2^1024.  The engines in use compute this value also for the long
    decimal numerals that ECMAScript would let them approximate.  (The
    double -0 is [VNum 0]: it is equal to 0 and falsy as 0 is.) *)
Definition number_value (n : Z) : value :=
  let m := Z.abs n in
  let e := Z.log2 m - 52 in
  if e <=? 0 then VNum n
  else
    let q := Z.shiftr m e in
    let r := m - Z.shiftl q e in
    let half := Z.shiftl 1 (e - 1) in
    let q' := if (half <? r) || ((r =? half) && Z.odd q) then q + 1 else q in
    let rounded := Z.shiftl q' e in
    if Z.shiftl 1 1024 <=? rounded then VInfinity (n <? 0)
    else VNum (Z.sgn n * rounded).

(** [parseInt(s)] without a radix: leading white space is skipped, a sign
    is read, the prefix [0x] or [0X] selects radix 16, and the digits up
    to the first character that is not one are read; without digits the
    result is [NaN], with digits the Number value of the integer they
    write. *)
Definition parseInt (s : string) : value :=
  let '(sign, s2) := strip_sign (trim_start s) in
  let '(radix, s3) := strip_prefix s2 in
  match take_digits radix s3 with
  | [] => VNaN
  | ds => number_value (sign * digits_value radix ds)
  end.

(** An element of an array of strings converted to the string argument of
    [parseInt]: a missing element is [undefined], whose string is
    "undefined". *)
Definition string_arg (o : option string) : string :=
  match o with Some s => s | None => "undefined" end.

(** Own property [key] of an object given by its list of properties. *)
Fixpoint lookup (key : string) (props : list (string * value)) : option value :=
  match props with
  | [] => None
  | (k, v) :: rest => if (k =? key)%string then Some v else lookup key rest
  end.

(** The property read [v.key], for a key that is not a built-in property
    of strings or arrays: a TypeError on [undefined] and [null],
    [undefined] where the property is missing. *)
Definition get_property (v : value) (key : string) : result value :=
  match v with
  | VUndefined | VNull => Throw TypeError
  | VObject props =>
      Ok (match lookup key props with Some x => x | None => VUndefined end)
  | _ => Ok VUndefined
  end.

(** ** Account settings model *)

Module AccountSettingsModel.

Definition idAttribute : string := "username".

(** The [defaults] object, its properties in source order. *)
Definition defaults : list (string * value) :=
  [ ("username", VStr "");
    ("name", VStr "");
    ("email", VStr "");
    ("password", VStr "");
    ("language", VNull);
    ("country", VNull);
    ("date_joined", VStr "");
    ("gender", VNull);
    ("goals", VStr "");
    ("level_of_education", VNull);
    ("mailing_address", VStr "");
    ("year_of_birth", VNull) ].

(** [model.get(key)] on a model that holds the defaults. *)
Definition get (key : string) : value :=
  match lookup key defaults with Some v => v | None => VUndefined end.

(** [model.id] is the attribute named by [idAttribute]. *)
Definition id : value := get idAttribute.

End AccountSettingsModel.

(** ** Cohort form view: data *)

(** A content group model.  The view reads the attributes [id] and
    [user_partition_id] with [get] and the property [contentGroup.id],
    which Backbone keeps for the attribute named by the model's
    [idAttribute]. *)
Record ContentGroupModel : Type := {
  cg_id : value;
  cg_attr_id : value;
  cg_attr_user_partition_id : value
}.

(** The attributes of a cohort that the view reads; each is a string, or
    [undefined] when the attribute is not set. *)
Record CohortAttributes : Type := {
  name : option string;
  assignment_type : option string
}.

(** A cohort model: the property [model.id] and the attributes. *)
Record CohortModel : Type := {
  id : value;
  attributes : CohortAttributes
}.

(** An element of [this.model.collection]: the view's own model, which is
    the same object and is therefore not copied, or another cohort. *)
Inductive member : Type :=
| This
| Other (c : CohortModel).

(** What the view reads from its form controls.  A jQuery lookup that
    matches no element gives [undefined], here [None]. *)
Record Controls : Type := {
  (** [this.$('.radio-yes').prop('checked')] *)
  radio_yes_checked : option bool;
  (** [this.$('.input-cohort-group-association').val()] *)
  group_association_val : option string;
  (** [this.$('.cohort-name').val()] *)
  cohort_name_val : option string;
  (** [this.$('input[name="cohort-assignment-type"]:checked').val()] *)
  assignment_type_val : option string;
  (** whether [this.$('.form-fields')] matches an element *)
  has_form_fields : bool
}.

(** The options of a [NotificationModel]. *)
Record NotificationOptions : Type := {
  n_type : string;
  n_title : value;
  n_details : option (list string)
}.

(** A [NotificationView]; [nv_ref] is the identity of the object. *)
Record NotificationView : Type := {
  nv_ref : nat;
  nv_model : NotificationOptions
}.

(** Where the element of a notification has been inserted: inside the
    element of the form view, or elsewhere in the page. *)
Inductive place : Type := InsideForm | Elsewhere.

Record FieldData : Type := {
  fd_name : value;
  fd_group_id : value;
  fd_user_partition_id : value;
  fd_assignment_type : value
}.

Record SaveOptions : Type := {
  patch : bool;
  wait : bool
}.

Record TemplateContext : Type := {
  tc_cohort : CohortModel;
  tc_isDefaultCohort : bool;
  tc_contentGroups : list ContentGroupModel;
  tc_studioGroupConfigurationsUrl : string
}.

Record CohortFormView : Type := {
  model : CohortModel;
  (** [this.model.collection], [None] when it is undefined *)
  collection : option (list member);
  contentGroups : list ContentGroupModel;
  (** [this.context.studioGroupConfigurationsUrl] *)
  context : string;
  controls : Controls;
  (** [this.notification] *)
  notification : option NotificationView;
  (** the notification views whose element is in the page *)
  displayed : list (nat * place);
  (** the next unused object identity *)
  fresh : nat
}.

(** The effects of the view, in the order in which they happen. *)
Inductive event : Type :=
| NotificationRemoved (n : nat)
| NotificationCreated (n : nat) (o : NotificationOptions)
| NotificationInserted (n : nat) (p : place)
| NotificationRendered (n : nat)
| FormRendered (c : TemplateContext)
| SaveRequested (d : FieldData) (o : SaveOptions)
| PromiseResolved
| PromiseRejected.

(** State of a jQuery deferred object; [resolve] and [reject] act on a
    pending one only. *)
Inductive deferred : Type := Pending | Resolved | Rejected.

Definition resolve (d : deferred) : deferred :=
  match d with Pending => Resolved | _ => d end.

Definition reject (d : deferred) : deferred :=
  match d with Pending => Rejected | _ => d end.

(** ** A monad for the methods of the view

    A method takes the view, and gives the view it leaves, the events it
    caused and its return value or the exception it raised. *)
Definition M (A : Type) : Type :=
  CohortFormView -> CohortFormView * list event * result A.

Definition ret {A : Type} (a : A) : M A := fun v => (v, [], Ok a).

Definition bind {A B : Type} (m : M A) (f : A -> M B) : M B :=
  fun v =>
    match m v with
    | (v1, t1, Ok a) =>
        match f a v1 with
        | (v2, t2, r) => (v2, t1 ++ t2, r)
        end
    | (v1, t1, Throw e) => (v1, t1, Throw e)
    end.

Notation "x <- m ;; k" := (bind m (fun x => k))
  (at level 61, m at next level, right associativity).
Notation "m ;; k" := (bind m (fun _ => k))
  (at level 61, right associativity).

Definition this : M CohortFormView := fun v => (v, [], Ok v).
Definition update (f : CohortFormView -> CohortFormView) : M unit :=
  fun v => (f v, [], Ok tt).
Definition emit (e : event) : M unit := fun v => (v, [e], Ok tt).
Definition lift {A : Type} (r : result A) : M A := fun v => (v, [], r).

Definition view_of {A : Type} (x : CohortFormView * list event * result A) :=
  fst (fst x).
Definition events_of {A : Type} (x : CohortFormView * list event * result A) :=
  snd (fst x).
Definition outcome_of {A : Type} (x : CohortFormView * list event * result A) :=
  snd x.

(** Field updates of the view. *)
Definition set_notification (n : option NotificationView) (v : CohortFormView) :=
  {| model := model v; collection := collection v;
     contentGroups := contentGroups v; context := context v;
     controls := controls v; notification := n;
     displayed := displayed v; fresh := fresh v |}.

Definition set_displayed (d : list (nat * place)) (v : CohortFormView) :=
  {| model := model v; collection := collection v;
     contentGroups := contentGroups v; context := context v;
     controls := controls v; notification := notification v;
     displayed := d; fresh := fresh v |}.

Definition set_fresh (n : nat) (v : CohortFormView) :=
  {| model := model v; collection := collection v;
     contentGroups := contentGroups v; context := context v;
     controls := controls v; notification := notification v;
     displayed := displayed v; fresh := n |}.

Definition set_controls (c : Controls) (v : CohortFormView) :=
  {| model := model v; collection := collection v;
     contentGroups := contentGroups v; context := context v;
     controls := c; notification := notification v;
     displayed := displayed v; fresh := fresh v |}.

Definition set_model (m : CohortModel) (v : CohortFormView) :=
  {| model := m; collection := collection v;
     contentGroups := contentGroups v; context := context v;
     controls := controls v; notification := notification v;
     displayed := displayed v; fresh := fresh v |}.

(** ** Cohort form view: methods *)

(** The state of one call of [saveForm]: the deferred object
    [saveOperation] and, when [cohort.save] has been called, the request
    whose [done] and [fail] handlers are waiting. *)
Record SaveOperation : Type := {
  promise : deferred;
  awaiting : option (FieldData * SaveOptions)
}.

(** How a save request ends.  On success Backbone stores the saved
    attributes in the model (the option [wait: true]) and the [done]
    handler receives the body of the response as [result]: the value that
    was parsed, [undefined] for a response without a body; on failure the
    [fail] handler receives the request, of which it reads
    [responseText]. *)
Inductive response : Type :=
| Success (saved : CohortAttributes) (result : value)
| Failure (responseText : option string).

(** [type || 'confirmation'] *)
Definition type_or_confirmation (type : option string) : string :=
  match type with
  | Some t => if truthy (VStr t) then t else "confirmation"
  | None => "confirmation"
  end.

(** The loop of [getSelectedContentGroup] over [this.contentGroups]. *)
Fixpoint find_content_group (groupId userPartitionId : value)
    (groups : list ContentGroupModel) : option ContentGroupModel :=
  match groups with
  | [] => None
  | contentGroup :: rest =>
      if strict_eq (cg_attr_id contentGroup) groupId
         && strict_eq (cg_attr_user_partition_id contentGroup) userPartitionId
      then Some contentGroup
      else find_content_group groupId userPartitionId rest
  end.

(** [cohorts.where({assignment_type: t})] *)
Definition where_assignment_type (t : string) (cohorts : list CohortModel)
    : list CohortModel :=
  filter (fun c => strict_eq (of_string (assignment_type (attributes c))) (VStr t))
         cohorts.

Definition inside_form (p : place) : bool :=
  match p with InsideForm => true | Elsewhere => false end.

Section Methods.

#[local] Set Default Proof Using "Type".

(** The translation function, the compiled template of the form (as the
    controls of the markup it produces) and [JSON.parse] ([None] when it
    raises a SyntaxError). *)
Variable gettext : string -> string.
Variable template : TemplateContext -> Controls.
Variable JSON_parse : string -> option value.

Definition removeNotification : M unit :=
  v <- this ;;
  match notification v with
  | Some n =>
      emit (NotificationRemoved (nv_ref n)) ;;
      update (fun v =>
        set_displayed
          (filter (fun d => negb (fst d =? nv_ref n)%nat) (displayed v)) v)
  | None => ret tt
  end.

Definition showNotification (options : NotificationOptions)
    (beforeElement : option place) : M unit :=
  let model := options in
  removeNotification ;;
  v <- this ;;
  let view := {| nv_ref := fresh v; nv_model := model |} in
  update (fun v => set_notification (Some view) (set_fresh (S (fresh v)) v)) ;;
  emit (NotificationCreated (nv_ref view) model) ;;
  match beforeElement with
  | Some p =>
      update (fun v => set_displayed ((nv_ref view, p) :: displayed v) v) ;;
      emit (NotificationInserted (nv_ref view) p)
  | None => ret tt
  end ;;
  emit (NotificationRendered (nv_ref view)).

(** The models of [this.model.collection]. *)
Definition collection_models (v : CohortFormView) : option (list CohortModel) :=
  match collection v with
  | Some members =>
      Some (map (fun m => match m with This => model v | Other c => c end)
                members)
  | None => None
  end.

Definition isDefault (v : CohortFormView) (name' : option string) : bool :=
  match collection_models v with
  | None => false
  | Some cohorts =>
      let randomModels := where_assignment_type "random" cohorts in
      (List.length randomModels =? 1)%nat
      && match randomModels with
         | first :: _ => loose_eq_string (name (attributes first)) name'
         | [] => false
         end
  end.

Definition render : M unit :=
  v <- this ;;
  let c := {| tc_cohort := model v;
              tc_isDefaultCohort := isDefault v (name (attributes (model v)));
              tc_contentGroups := contentGroups v;
              tc_studioGroupConfigurationsUrl := context v |} in
  emit (FormRendered c) ;;
  update (fun v =>
    set_controls (template c)
      (set_displayed
         (filter (fun d => negb (inside_form (snd d))) (displayed v)) v)).

Definition hasAssociatedContentGroup (v : CohortFormView) : value :=
  match radio_yes_checked (controls v) with
  | Some b => VBool b
  | None => VUndefined
  end.

Definition getSelectedContentGroup (v : CohortFormView)
    : result (option ContentGroupModel) :=
  let selectValue := group_association_val (controls v) in
  if negb (truthy (hasAssociatedContentGroup v))
     || strict_eq (of_string selectValue) (VStr "None")
  then Ok None
  else
    match selectValue with
    | None => Throw TypeError
    | Some s =>
        let ids := split ":" s in
        let groupId := parseInt (string_arg (nth_error ids 0)) in
        let userPartitionId := parseInt (string_arg (nth_error ids 1)) in
        Ok (find_content_group groupId userPartitionId (contentGroups v))
    end.

Definition getUpdatedCohortName (v : CohortFormView) : option string :=
  match cohort_name_val (controls v) with
  | Some cohortName =>
      if truthy (VStr cohortName) then Some (trim cohortName)
      else name (attributes (model v))
  | None => name (attributes (model v))
  end.

Definition getAssignmentType (v : CohortFormView) : option string :=
  assignment_type_val (controls v).

Definition isCohortExists (v : CohortFormView) (name' : option string) : bool :=
  loose_eq_string (name (attributes (model v))) name'.

Definition showMessage (message : value) (type : option string)
    (details : option (list string)) : M unit :=
  v <- this ;;
  showNotification
    {| n_type := type_or_confirmation type;
       n_title := message;
       n_details := details |}
    (if has_form_fields (controls v) then Some InsideForm else None).

Definition validate (v : CohortFormView) (fieldData : FieldData) : list string :=
  let errorMessages := [] in
  let errorMessages :=
    if negb (truthy (fd_name fieldData))
    then errorMessages ++ [gettext "You must specify a name for the cohort"]
    else errorMessages in
  let errorMessages :=
    if truthy (hasAssociatedContentGroup v)
       && strict_eq (fd_group_id fieldData) VNull
    then
      if strict_eq (of_string (group_association_val (controls v))) (VStr "None")
      then errorMessages ++ [gettext "You did not select a content group"]
      else errorMessages ++ [gettext "The selected content group does not exist"]
    else errorMessages in
  errorMessages.

(** The [fieldData] object that [saveForm] builds. *)
Definition fieldData_of (v : CohortFormView)
    (selectedContentGroup : option ContentGroupModel) : FieldData :=
  {| fd_name := of_string (getUpdatedCohortName v);
     fd_group_id :=
       match selectedContentGroup with Some g => cg_id g | None => VNull end;
     fd_user_partition_id :=
       match selectedContentGroup with
       | Some g => cg_attr_user_partition_id g
       | None => VNull
       end;
     fd_assignment_type := of_string (getAssignmentType v) |}.

(** [saveForm], up to its [return]: the handlers given to [done] and
    [fail] are [saveDone] and [saveFail] below. *)
Definition saveForm : M SaveOperation :=
  v0 <- this ;;
  let saveOperation := Pending in
  let isUpdate := negb (is_undefined (id (model v0))) in
  removeNotification ;;
  v <- this ;;
  selectedContentGroup <- lift (getSelectedContentGroup v) ;;
  let fieldData := fieldData_of v selectedContentGroup in
  let errorMessages := validate v fieldData in
  if (0 <? List.length errorMessages)%nat then
    showMessage
      (VStr (if isUpdate then gettext "The cohort cannot be saved"
             else gettext "The cohort cannot be added"))
      (Some "error") (Some errorMessages) ;;
    emit PromiseRejected ;;
    ret {| promise := reject saveOperation; awaiting := None |}
  else
    let options := {| patch := isUpdate; wait := true |} in
    emit (SaveRequested fieldData options) ;;
    ret {| promise := saveOperation; awaiting := Some (fieldData, options) |}.

(** The handler passed to [done]; reading [result.id] raises a TypeError
    when [result] is [null] or [undefined], and the handler ends there. *)
Definition saveDone (op : SaveOperation) (result : value) : M SaveOperation :=
  id' <- lift (get_property result "id") ;;
  update (fun v =>
    set_model {| id := id'; attributes := attributes (model v) |} v) ;;
  render ;;
  emit PromiseResolved ;;
  ret {| promise := resolve (promise op); awaiting := None |}.

(** The message that the handler passed to [fail] reads from the
    response: [null] unless the body parses and has a property [error]. *)
Definition response_error (responseText : option string) : value :=
  match JSON_parse (string_arg responseText) with
  | Some jsonResponse =>
      match get_property jsonResponse "error" with
      | Ok e => e
      | Throw _ => VNull
      end
  | None => VNull
  end.

Definition default_error : string :=
  "We've encountered an error. Refresh your browser and then try again.".

(** The handler passed to [fail]. *)
Definition saveFail (op : SaveOperation) (responseText : option string)
    : M SaveOperation :=
  let errorMessage := response_error responseText in
  let errorMessage :=
    if negb (truthy errorMessage) then VStr (gettext default_error)
    else errorMessage in
  showMessage errorMessage (Some "error") None ;;
  emit PromiseRejected ;;
  ret {| promise := reject (promise op); awaiting := None |}.

(** The end of the request of a save operation: the handler that the
    response selects runs; an operation without a request has none. *)
Definition respond (op : SaveOperation) (r : response) : M SaveOperation :=
  match awaiting op with
  | None => ret op
  | Some _ =>
      match r with
      | Success saved result =>
          update (fun v =>
            set_model {| id := id (model v); attributes := saved |} v) ;;
          saveDone op result
      | Failure responseText => saveFail op responseText
      end
  end.

(** A call of [saveForm] followed, when the response has arrived, by
    the handler for it. *)
Definition saveForm_session (r : option response) : M SaveOperation :=
  op <- saveForm ;;
  match r with
  | Some r' => respond op r'
  | None => ret op
  end.

(** ** Use of the view

    [initialize] gives the view before its first rendering: no control
    exists yet and no notification has been shown. *)
Definition no_controls : Controls :=
  {| radio_yes_checked := None; group_association_val := None;
     cohort_name_val := None; assignment_type_val := None;
     has_form_fields := false |}.

Definition initialize (m : CohortModel) (c : option (list member))
    (groups : list ContentGroupModel) (url : string) : CohortFormView :=
  {| model := m; collection := c; contentGroups := groups; context := url;
     controls := no_controls; notification := None; displayed := [];
     fresh := 0%nat |}.

(** What can happen to a view: a call of one of its methods, the end of
    a save request, or the user changing the form controls. *)
Inductive action : Type :=
| CallShowNotification (o : NotificationOptions) (b : option place)
| CallRemoveNotification
| CallRender
| CallShowMessage (m : value) (t : option string) (d : option (list string))
| CallSaveForm
| Response (op : SaveOperation) (r : response)
| Input (c : Controls).

Definition perform (v : CohortFormView) (a : action) : CohortFormView :=
  match a with
  | CallShowNotification o b => view_of (showNotification o b v)
  | CallRemoveNotification => view_of (removeNotification v)
  | CallRender => view_of (render v)
  | CallShowMessage m t d => view_of (showMessage m t d v)
  | CallSaveForm => view_of (saveForm v)
  | Response op r => view_of (respond op r v)
  | Input c => set_controls c v
  end.

Definition run (v : CohortFormView) (actions : list action) : CohortFormView :=
  fold_left perform actions v.

(** ** Reading a list of events *)

Definition save_requests (t : list event) : list (FieldData * SaveOptions) :=
  flat_map (fun e => match e with SaveRequested d o => [(d, o)] | _ => [] end) t.

Definition settlements (t : list event) : list event :=
  filter (fun e => match e with
                   | PromiseResolved | PromiseRejected => true
                   | _ => false
                   end) t.

(** ** Notions used by the statements *)

(** The text of [s] before its first colon, and the text after it when
    there is one. *)
Fixpoint before_colon (s : string) : string :=
  match s with
  | EmptyString => EmptyString
  | String c r => if Ascii.eqb c ":" then EmptyString else String c (before_colon r)
  end.

Fixpoint after_colon (s : string) : option string :=
  match s with
  | EmptyString => None
  | String c r => if Ascii.eqb c ":" then Some r else after_colon r
  end.

(** The integer parsed after the colon of [s]; without a colon nothing is
    parsed. *)
Definition parsed_after_colon (s : string) : value :=
  match after_colon s with
  | Some r => parseInt r
  | None => VNaN
  end.

(** [x] is the number that [p], a result of [parseInt], is: [p] is not
    [NaN], which is the result when no integer could be parsed, and [x] is
    the same number. *)
Definition equals_parsed (x p : value) : Prop :=
  p <> VNaN /\ x = p.

(** [r] is the first element of [l] with the property [P], or [None] when
    no element has it. *)
Definition first_such {A : Type} (P : A -> Prop) (l : list A) (r : option A) : Prop :=
  match r with
  | Some x => exists l1 l2, l = l1 ++ x :: l2 /\ P x /\ Forall (fun y => ~ P y) l1
  | None => Forall (fun y => ~ P y) l
  end.

Definition all_whitespace (s : string) : Prop :=
  Forall (fun c => is_whitespace c = true) (list_ascii_of_string s).

Definition starts_with_whitespace (s : string) : bool :=
  match s with
  | EmptyString => false
  | String c _ => is_whitespace c
  end.

Fixpoint ends_with_whitespace (s : string) : bool :=
  match s with
  | EmptyString => false
  | String c EmptyString => is_whitespace c
  | String _ r => ends_with_whitespace r
  end.

(** The body of a response is [null] or absent. *)
Definition no_body (result : value) : bool :=
  match result with
  | VUndefined | VNull => true
  | _ => false
  end.

(** A cohort with random assignment. *)
Definition is_random (c : CohortModel) : Prop :=
  assignment_type (attributes c) = Some "random".

(** Every displayed notification is the one the view holds, and it is
    displayed once. *)
Definition displays_current (v : CohortFormView) : Prop :=
  displayed v = []
  \/ exists n p, notification v = Some n /\ displayed v = [(nv_ref n, p)].

(** A method keeps a property of the view, also when it raises. *)
Definition preserves {A : Type} (P : CohortFormView -> Prop) (m : M A) : Prop :=
  forall v, P v -> P (view_of (m v)).

(** ** The change handler of the radio buttons *)

(** The select [.input-cohort-group-association] as the handler acts on
    it: the values of its options, the value of the selected option and
    the property [disabled]. *)
Record AssociationSelect : Type := {
  select_options : list string;
  select_value : option string;
  select_disabled : bool
}.

(** What a select with the given options shows after [select.val(x)] when
    none of its options has the value [x].  The versions of jQuery differ:
    those that reset the selected index leave no selected option, those
    that only deselect the options leave the browser's choice, the first
    option. *)
Variable unmatched_value : list string -> option string.

(** jQuery's [select.val(x)]: the option with the value [x] becomes the
    selected one. *)
Definition set_val (x : string) (s : AssociationSelect) : AssociationSelect :=
  {| select_options := select_options s;
     select_value := if existsb (String.eqb x) (select_options s)
                     then Some x else unmatched_value (select_options s);
     select_disabled := select_disabled s |}.

(** [select.prop('disabled', b)] *)
Definition set_disabled (b : bool) (s : AssociationSelect) : AssociationSelect :=
  {| select_options := select_options s;
     select_value := select_value s;
     select_disabled := b |}.

(** [onRadioButtonChange]: [target_val] is [$(event.currentTarget).val()],
    [select] the element that [this.$('.input-cohort-group-association')]
    matches, if any; a jQuery call on no element does nothing. *)
Definition onRadioButtonChange (target_val : option string)
    (select : option AssociationSelect) : option AssociationSelect :=
  let groupsEnabled := strict_eq (of_string target_val) (VStr "yes") in
  let select :=
    if negb groupsEnabled then option_map (set_val "None") select
    else select in
  option_map (set_disabled (negb groupsEnabled)) select.

(** [select.val()]: the value of the selected option. *)
Definition val_of (select : option AssociationSelect) : option string :=
  match select with
  | Some s => select_value s
  | None => None
  end.

(** ** Further notions used by the statements *)

(** The decimal numeral of an integer, as JavaScript writes a number that
    is an integer. *)
Definition decimal (n : Z) : string :=
  DecimalString.NilZero.string_of_int (Z.to_int n).

(** The digits of a decimal numeral, the most significant first. *)
Fixpoint digits_of_uint (d : Decimal.uint) : list Z :=
  match d with
  | Decimal.Nil => []
  | Decimal.D0 l => 0 :: digits_of_uint l
  | Decimal.D1 l => 1 :: digits_of_uint l
  | Decimal.D2 l => 2 :: digits_of_uint l
  | Decimal.D3 l => 3 :: digits_of_uint l
  | Decimal.D4 l => 4 :: digits_of_uint l
  | Decimal.D5 l => 5 :: digits_of_uint l
  | Decimal.D6 l => 6 :: digits_of_uint l
  | Decimal.D7 l => 7 :: digits_of_uint l
  | Decimal.D8 l => 8 :: digits_of_uint l
  | Decimal.D9 l => 9 :: digits_of_uint l
  end.

(** The view with another value in the name input. *)
Definition set_cohort_name_val (i : option string) (v : CohortFormView)
    : CohortFormView :=
  set_controls
    {| radio_yes_checked := radio_yes_checked (controls v);
       group_association_val := group_association_val (controls v);
       cohort_name_val := i;
       assignment_type_val := assignment_type_val (controls v);
       has_form_fields := has_form_fields (controls v) |} v.

(** [v'] has the model, the collection, the content groups, the context
    and the form controls of [v]: all that [saveForm] reads. *)
Definition same_reads (v v' : CohortFormView) : Prop :=
  model v' = model v
  /\ collection v' = collection v
  /\ contentGroups v' = contentGroups v
  /\ context v' = context v
  /\ controls v' = controls v.

(** A content group has the attributes [id] and [user_partition_id] that
    the select value [s] names. *)
Definition named_by (s : string) (g : ContentGroupModel) : Prop :=
  equals_parsed (cg_attr_id g) (parseInt (before_colon s))
  /\ equals_parsed (cg_attr_user_partition_id g) (parsed_after_colon s).

(** A member of a collection that is another cohort without random
    assignment. *)
Definition other_not_random (m : member) : Prop :=
  match m with
  | This => False
  | Other c => ~ is_random c
  end.

(** ** A cohort form used in the examples

    The form of a cohort that has not been saved yet: two content groups
    exist, the second is selected, and the name was typed with spaces
    around it. *)
Definition example_group_1 : ContentGroupModel :=
  {| cg_id := VNum 1; cg_attr_id := VNum 1; cg_attr_user_partition_id := VNum 5 |}.

Definition example_group_2 : ContentGroupModel :=
  {| cg_id := VNum 2; cg_attr_id := VNum 2; cg_attr_user_partition_id := VNum 5 |}.

Definition example_controls : Controls :=
  {| radio_yes_checked := Some true;
     group_association_val := Some "2:5";
     cohort_name_val := Some " Group A ";
     assignment_type_val := Some "manual";
     has_form_fields := true |}.

Definition example_view : CohortFormView :=
  {| model := {| id := VUndefined;
                 attributes := {| name := Some ""; assignment_type := Some "" |} |};
     collection := None;
     contentGroups := [example_group_1; example_group_2];
     context := "/group_configurations";
     controls := example_controls;
     notification := None;
     displayed := [];
     fresh := 0%nat |}.

(** The same form with no name typed and no content group selected. *)
Definition example_invalid_view : CohortFormView :=
  set_controls
    {| radio_yes_checked := Some true;
       group_association_val := Some "None";
       cohort_name_val := Some "";
       assignment_type_val := Some "manual";
       has_form_fields := true |}
    example_view.

(** The form of the default cohort of a course with two cohorts. *)
Definition example_default_view : CohortFormView :=
  {| model := {| id := VNum 1;
                 attributes := {| name := Some "Default Group";
                                  assignment_type := Some "random" |} |};
     collection :=
       Some [This;
             Other {| id := VNum 2;
                      attributes := {| name := Some "Group A";
                                       assignment_type := Some "manual" |} |}];
     contentGroups := [];
     context := "/group_configurations";
     controls := example_controls;
     notification := None;
     displayed := [];
     fresh := 0%nat |}.

(** The example form for a cohort that the server already knows. *)
Definition example_existing_view : CohortFormView :=
  set_model {| id := VNum 7; attributes := attributes (model example_view) |}
    example_view.

(** The example form when the page has no select. *)
Definition example_view_without_select : CohortFormView :=
  set_controls
    {| radio_yes_checked := Some true;
       group_association_val := None;
       cohort_name_val := Some "Group A";
       assignment_type_val := Some "manual";
       has_form_fields := true |}
    example_view.

(** The example form with a name of three spaces. *)
Definition example_blank_view : CohortFormView :=
  set_cohort_name_val (Some "   ") example_view.

(** The example form with a selected option that names no content group. *)
Definition example_unknown_group_view : CohortFormView :=
  set_controls
    {| radio_yes_checked := Some true;
       group_association_val := Some "9:5";
       cohort_name_val := Some "Group A";
       assignment_type_val := Some "manual";
       has_form_fields := true |}
    example_view.

(** The form of the default cohort before its first rendering. *)
Definition example_new_view : CohortFormView :=
  initialize (model example_default_view) None [] "/group_configurations".

(** An untranslated interface, a template that renders the controls of
    the example, and a parser that knows two response bodies. *)
Definition example_gettext (s : string) : string := s.

Definition example_template (c : TemplateContext) : Controls := example_controls.

Definition example_JSON_parse (s : string) : option value :=
  if (s =? "{}")%string then Some (VObject [])
  else if (s =? "{error: name taken}")%string
       then Some (VObject [("error", VStr "name taken")])
       else None.

(** ** Properties of the primitives *)

Lemma strict_eq_null (x : value) : strict_eq x VNull = true <-> x = VNull.
Proof. destruct x; simpl; split; congruence. Qed.

Lemma strict_eq_string (o : option string) (s : string) :
  strict_eq (of_string o) (VStr s) = true <-> o = Some s.
Proof.
  destruct o as [t|]; simpl.
  - rewrite String.eqb_eq. split; congruence.
  - split; congruence.
Qed.

Lemma loose_eq_string_eq (a b : option string) :
  loose_eq_string a b = true <-> a = b.
Proof.
  destruct a as [x|], b as [y|]; simpl; try (split; congruence).
  rewrite String.eqb_eq. split; congruence.
Qed.

Lemma truthy_string (s : string) : truthy (VStr s) = false <-> s = "".
Proof.
  simpl. rewrite negb_false_iff. apply String.eqb_eq.
Qed.

Lemma filter_singleton {A : Type} (f : A -> bool) (l : list A) (x : A) :
  filter f l = [x] <->
  exists l1 l2, l = l1 ++ x :: l2 /\ f x = true
                /\ Forall (fun y => f y = false) l1
                /\ Forall (fun y => f y = false) l2.
Proof.
  split.
  - revert x. induction l as [|a l IH]; intros x H; simpl in H; [discriminate|].
    destruct (f a) eqn:Fa.
    + injection H as -> Hl. exists [], l. repeat split; auto.
      clear IH Fa. induction l as [|b l IH]; constructor; simpl in Hl;
        destruct (f b) eqn:Fb; try discriminate; auto.
    + destruct (IH x H) as (l1 & l2 & -> & Fx & H1 & H2).
      exists (a :: l1), l2. repeat split; auto.
  - intros (l1 & l2 & -> & Fx & H1 & H2).
    induction H1 as [|a l1 Fa _ IH]; simpl.
    + rewrite Fx. f_equal.
      induction H2 as [|b l2 Fb _ IH]; simpl; [reflexivity|].
      now rewrite Fb.
    + now rewrite Fa.
Qed.

(** ** The account settings model *)

(** C6: the defaults of [AccountSettingsModel] are exactly the twelve
    fields username, name, email, password, language, country, date_joined,
    gender, goals, level_of_education, mailing_address and year_of_birth;
    username, name, email, password, date_joined, goals and
    mailing_address default to the empty string and the five others to
    [null]; the id attribute of the model is username. *)
Theorem account_settings_defaults :
  map fst AccountSettingsModel.defaults =
    ["username"; "name"; "email"; "password"; "language"; "country";
     "date_joined"; "gender"; "goals"; "level_of_education";
     "mailing_address"; "year_of_birth"]
  /\ List.length AccountSettingsModel.defaults = 12%nat
  /\ Forall (fun k => lookup k AccountSettingsModel.defaults = Some (VStr ""))
       ["username"; "name"; "email"; "password"; "date_joined"; "goals";
        "mailing_address"]
  /\ Forall (fun k => lookup k AccountSettingsModel.defaults = Some VNull)
       ["language"; "country"; "gender"; "level_of_education"; "year_of_birth"]
  /\ AccountSettingsModel.idAttribute = "username"
  /\ AccountSettingsModel.id = VStr "".
Proof.
  repeat split; repeat constructor.
Qed.

(** ** The pure methods of the form view *)

(** C1: [validate] returns a list with a message in it exactly when the
    name of the field data is falsy, or the radio button 'yes' is checked
    while [group_id] is [null]; in all other cases the list is empty. *)
Theorem validate_presence_checks (v : CohortFormView) (fieldData : FieldData) :
  (validate v fieldData <> [] <->
     truthy (fd_name fieldData) = false
     \/ (radio_yes_checked (controls v) = Some true
         /\ fd_group_id fieldData = VNull))
  /\ (validate v fieldData = [] <->
        ~ (truthy (fd_name fieldData) = false
           \/ (radio_yes_checked (controls v) = Some true
               /\ fd_group_id fieldData = VNull))).
Proof.
  unfold validate, hasAssociatedContentGroup.
  destruct (truthy (fd_name fieldData)) eqn:Hn; simpl;
    destruct (radio_yes_checked (controls v)) as [[|]|]; simpl;
    try destruct (strict_eq (fd_group_id fieldData) VNull) eqn:Hg; simpl;
    try apply strict_eq_null in Hg;
    try destruct (strict_eq (of_string (group_association_val (controls v)))
                    (VStr "None"));
    split; split; try congruence; intuition (try congruence);
    try (assert (Hx : strict_eq (fd_group_id fieldData) VNull = true)
           by (apply strict_eq_null; assumption); congruence).
Qed.

(** C10: [isDefault] answers [true] exactly when the collection of the
    model is defined, exactly one cohort of it has the assignment type
    'random', and the name of that cohort is the given name; it answers
    [false] when the collection is undefined. *)
Theorem isDefault_iff (v : CohortFormView) (name' : option string) :
  (isDefault v name' = true <->
     exists cohorts c before after,
       collection_models v = Some cohorts
       /\ cohorts = before ++ c :: after
       /\ is_random c
       /\ Forall (fun x => ~ is_random x) before
       /\ Forall (fun x => ~ is_random x) after
       /\ name (attributes c) = name')
  /\ (collection v = None -> isDefault v name' = false).
Proof.
  assert (R : forall c,
    strict_eq (of_string (assignment_type (attributes c))) (VStr "random") = true
    <-> is_random c) by (intro c; apply strict_eq_string).
  assert (NR : forall l,
    Forall (fun y => strict_eq (of_string (assignment_type (attributes y)))
                       (VStr "random") = false) l
    <-> Forall (fun x => ~ is_random x) l).
  { intro l. split; intro H; eapply Forall_impl; try exact H; intros a Ha.
    - rewrite <- R. congruence.
    - destruct (strict_eq _ _) eqn:E; [|reflexivity].
      apply R in E. contradiction. }
  split.
  - unfold isDefault. destruct (collection_models v) as [cohorts|].
    + cbv zeta. split.
      * intro H. apply andb_true_iff in H as [Hlen Hname].
        destruct (where_assignment_type "random" cohorts) as [|c [|d rest]] eqn:W;
          try discriminate.
        apply filter_singleton in W as (l1 & l2 & -> & Fc & H1 & H2).
        exists (l1 ++ c :: l2), c, l1, l2.
        repeat split; auto; try (now apply R); try (now apply NR).
        now apply loose_eq_string_eq.
      * intros (cs & c & l1 & l2 & E & -> & Rc & H1 & H2 & Hn).
        injection E as ->.
        assert (W : where_assignment_type "random" (l1 ++ c :: l2) = [c]).
        { apply filter_singleton. exists l1, l2.
          repeat split; try (now apply R); now apply NR. }
        rewrite W. simpl. now apply loose_eq_string_eq.
    + split; [discriminate|].
      intros (cs & c & l1 & l2 & E & _). discriminate.
  - intro H. unfold isDefault, collection_models. now rewrite H.
Qed.

(** *** Trimming *)

Lemma trim_start_decompose (s : string) :
  exists pre, s = (pre ++ trim_start s)%string /\ all_whitespace pre.
Proof.
  induction s as [|c r (pre & E & W)]; simpl.
  - exists EmptyString. split; [reflexivity | constructor].
  - destruct (is_whitespace c) eqn:Wc.
    + exists (String c pre). split.
      * simpl. now rewrite <- E.
      * unfold all_whitespace. simpl. now constructor.
    + exists EmptyString. split; [reflexivity | constructor].
Qed.

Lemma trim_start_no_leading (s : string) :
  starts_with_whitespace (trim_start s) = false.
Proof.
  induction s as [|c r IH]; simpl; [reflexivity|].
  destruct (is_whitespace c) eqn:Wc; [exact IH | simpl; exact Wc].
Qed.

Lemma trim_end_decompose (s : string) :
  exists post, s = (trim_end s ++ post)%string /\ all_whitespace post.
Proof.
  induction s as [|c r (post & E & W)]; simpl.
  - exists EmptyString. split; [reflexivity | constructor].
  - destruct (trim_end r) as [|d r'] eqn:T.
    + simpl in E. subst post.
      destruct (is_whitespace c) eqn:Wc.
      * exists (String c r). split; [reflexivity|].
        unfold all_whitespace. simpl. now constructor.
      * exists r. split; [reflexivity | assumption].
    + exists post. split; [|assumption].
      simpl. simpl in E. now rewrite <- E.
Qed.

Lemma trim_end_no_trailing (s : string) :
  ends_with_whitespace (trim_end s) = false.
Proof.
  induction s as [|c r IH]; simpl; [reflexivity|].
  destruct (trim_end r) as [|d r'] eqn:T.
  - destruct (is_whitespace c) eqn:Wc; simpl; [reflexivity | exact Wc].
  - exact IH.
Qed.

Lemma trim_end_keeps_start (s : string) :
  starts_with_whitespace s = false ->
  starts_with_whitespace (trim_end s) = false.
Proof.
  destruct s as [|c r]; simpl; [reflexivity|].
  intro Wc. destruct (trim_end r); [rewrite Wc|]; simpl; exact Wc.
Qed.

(** [trim] removes white space at both ends and nothing else. *)
Lemma trim_spec (s : string) :
  exists pre post,
    s = (pre ++ trim s ++ post)%string
    /\ all_whitespace pre /\ all_whitespace post
    /\ starts_with_whitespace (trim s) = false
    /\ ends_with_whitespace (trim s) = false.
Proof.
  destruct (trim_start_decompose s) as (pre & E1 & W1).
  destruct (trim_end_decompose (trim_start s)) as (post & E2 & W2).
  exists pre, post. unfold trim. repeat split; auto.
  - now rewrite <- E2.
  - apply trim_end_keeps_start, trim_start_no_leading.
  - apply trim_end_no_trailing.
Qed.

(** C9: [getUpdatedCohortName] returns the value of the name input without
    the white space at its two ends when that value is not empty, and the
    current name of the model when the value is empty or the input is
    absent; a name taken from the input neither starts nor ends with white
    space. *)
Theorem getUpdatedCohortName_trimmed (v : CohortFormView) :
  match cohort_name_val (controls v) with
  | None | Some EmptyString =>
      getUpdatedCohortName v = name (attributes (model v))
  | Some input =>
      exists pre t post,
        getUpdatedCohortName v = Some t
        /\ input = (pre ++ t ++ post)%string
        /\ all_whitespace pre /\ all_whitespace post
        /\ starts_with_whitespace t = false
        /\ ends_with_whitespace t = false
  end.
Proof.
  unfold getUpdatedCohortName.
  destruct (cohort_name_val (controls v)) as [[|c r]|]; try reflexivity.
  destruct (trim_spec (String c r)) as (pre & post & E & W1 & W2 & S1 & S2).
  exists pre, (trim (String c r)), post. simpl truthy. cbv iota.
  repeat split; auto.
Qed.

(** *** Reading the identifiers of the selected option *)

Lemma split_colon (s : string) :
  split ":" s =
  before_colon s :: match after_colon s with
                    | Some r => split ":" r
                    | None => []
                    end.
Proof.
  induction s as [|c r IH]; simpl; [reflexivity|].
  destruct (Ascii.eqb c ":"); [reflexivity|].
  now rewrite IH.
Qed.

Lemma trim_start_before_colon (s : string) :
  trim_start (before_colon s) = before_colon (trim_start s).
Proof.
  induction s as [|c r IH]; simpl; [reflexivity|].
  destruct (Ascii.eqb c ":") eqn:E.
  - apply Ascii.eqb_eq in E. subst c. reflexivity.
  - simpl. destruct (is_whitespace c); [exact IH|].
    simpl. now rewrite E.
Qed.

Lemma strip_sign_before_colon (s : string) :
  strip_sign (before_colon s) =
  (fst (strip_sign s), before_colon (snd (strip_sign s))).
Proof.
  destruct s as [|c r]; simpl; [reflexivity|].
  destruct (Ascii.eqb c ":") eqn:E.
  - apply Ascii.eqb_eq in E. subst c. reflexivity.
  - simpl. destruct (Ascii.eqb c "-"); [reflexivity|].
    destruct (Ascii.eqb c "+"); [reflexivity|].
    simpl. now rewrite E.
Qed.

Lemma strip_prefix_before_colon (s : string) :
  strip_prefix (before_colon s) =
  (fst (strip_prefix s), before_colon (snd (strip_prefix s))).
Proof.
  destruct s as [|c [|d r]]; simpl; [reflexivity| |].
  - destruct (Ascii.eqb c ":") eqn:E; simpl; rewrite ?E; reflexivity.
  - destruct (Ascii.eqb c ":") eqn:E.
    + apply Ascii.eqb_eq in E. subst c. reflexivity.
    + destruct (Ascii.eqb d ":") eqn:F.
      * apply Ascii.eqb_eq in F. subst d. simpl.
        rewrite andb_false_r. simpl. now rewrite E.
      * simpl.
        destruct (Ascii.eqb c "0" && (Ascii.eqb d "x" || Ascii.eqb d "X"));
          simpl; rewrite ?E, ?F; reflexivity.
Qed.

Lemma take_digits_before_colon (radix : Z) (s : string) :
  take_digits radix (before_colon s) = take_digits radix s.
Proof.
  induction s as [|c r IH]; simpl; [reflexivity|].
  destruct (Ascii.eqb c ":") eqn:E.
  - apply Ascii.eqb_eq in E. subst c. reflexivity.
  - simpl. destruct (digit_value c) as [d|]; [|reflexivity].
    destruct (d <? radix); [now rewrite IH | reflexivity].
Qed.

(** [parseInt] reads nothing beyond a colon. *)
Lemma parseInt_before_colon (s : string) :
  parseInt (before_colon s) = parseInt s.
Proof.
  unfold parseInt.
  rewrite trim_start_before_colon, strip_sign_before_colon.
  destruct (strip_sign (trim_start s)) as [sign s2]. simpl fst. simpl snd.
  rewrite strip_prefix_before_colon.
  destruct (strip_prefix s2) as [radix s3]. simpl fst. simpl snd.
  now rewrite take_digits_before_colon.
Qed.

Lemma number_value_number (n : Z) :
  (exists k, number_value n = VNum k) \/ (exists b, number_value n = VInfinity b).
Proof.
  unfold number_value. destruct (Z.log2 (Z.abs n) - 52 <=? 0); [eauto|].
  cbv zeta. destruct (Z.shiftl 1 1024 <=? _); eauto.
Qed.

Lemma parseInt_number (s : string) :
  parseInt s = VNaN
  \/ (exists n, parseInt s = VNum n)
  \/ (exists b, parseInt s = VInfinity b).
Proof.
  unfold parseInt.
  destruct (strip_sign (trim_start s)) as [sign s2].
  destruct (strip_prefix s2) as [radix s3].
  destruct (take_digits radix s3) as [|d ds]; [left; reflexivity | right].
  apply number_value_number.
Qed.

Lemma strict_eq_number (x p : value) :
  (exists n, p = VNum n) \/ (exists b, p = VInfinity b) ->
  (strict_eq x p = true <-> x = p).
Proof.
  intros [[n ->] | [b ->]]; destruct x; simpl; try (split; discriminate).
  - rewrite Z.eqb_eq. split; congruence.
  - rewrite Bool.eqb_true_iff. split; congruence.
Qed.

Lemma strict_eq_parsed (x : value) (s : string) :
  strict_eq x (parseInt s) = true <-> equals_parsed x (parseInt s).
Proof.
  unfold equals_parsed.
  destruct (parseInt_number s) as [E | N].
  - rewrite E. split; [destruct x; discriminate | intros [H _]; now elim H].
  - rewrite (strict_eq_number x _ N). split.
    + intro H. split; [|exact H]. destruct N as [[n ->] | [b ->]]; discriminate.
    + intros [_ H]. exact H.
Qed.

Lemma find_content_group_first (groupId userPartitionId : value)
    (groups : list ContentGroupModel) :
  first_such
    (fun g => strict_eq (cg_attr_id g) groupId = true
              /\ strict_eq (cg_attr_user_partition_id g) userPartitionId = true)
    groups (find_content_group groupId userPartitionId groups).
Proof.
  induction groups as [|g rest IH]; simpl; [constructor|].
  destruct (strict_eq (cg_attr_id g) groupId
            && strict_eq (cg_attr_user_partition_id g) userPartitionId) eqn:E.
  - apply andb_true_iff in E. exists [], rest. repeat split; tauto || constructor.
  - assert (N : ~ (strict_eq (cg_attr_id g) groupId = true
                   /\ strict_eq (cg_attr_user_partition_id g) userPartitionId = true)).
    { rewrite <- andb_true_iff. congruence. }
    destruct (find_content_group groupId userPartitionId rest) as [x|]; simpl in *.
    + destruct IH as (l1 & l2 & -> & Px & H1).
      exists (g :: l1), l2. repeat split; try tauto. now constructor.
    + now constructor.
Qed.

Lemma first_such_ext {A : Type} (P Q : A -> Prop) (l : list A) (r : option A) :
  (forall x, P x <-> Q x) -> first_such P l r -> first_such Q l r.
Proof.
  intros PQ. assert (F : forall k, Forall (fun y => ~ P y) k -> Forall (fun y => ~ Q y) k).
  { intros k H. eapply Forall_impl; [|exact H]. intros a Ha Qa. now apply Ha, PQ. }
  destruct r as [x|]; simpl.
  - intros (l1 & l2 & E & Px & H1). exists l1, l2. repeat split; auto. now apply PQ.
  - apply F.
Qed.

(** C5: [getSelectedContentGroup] returns [null] when the radio button
    'yes' is not checked or the value of the select is 'None'; otherwise it
    returns the first content group of [contentGroups] whose [id] is the
    integer parsed before the colon of the value and whose
    [user_partition_id] is the integer parsed after it, and [null] when the
    list has no such group. *)
Theorem getSelectedContentGroup_spec (v : CohortFormView) :
  (radio_yes_checked (controls v) <> Some true ->
   getSelectedContentGroup v = Ok None)
  /\ forall s, group_association_val (controls v) = Some s ->
       exists r, getSelectedContentGroup v = Ok r
         /\ (radio_yes_checked (controls v) <> Some true \/ s = "None" ->
             r = None)
         /\ (radio_yes_checked (controls v) = Some true -> s <> "None" ->
             first_such
               (fun g => equals_parsed (cg_attr_id g) (parseInt (before_colon s))
                         /\ equals_parsed (cg_attr_user_partition_id g)
                                          (parsed_after_colon s))
               (contentGroups v) r).
Proof.
  clear gettext template JSON_parse.
  unfold getSelectedContentGroup, hasAssociatedContentGroup. split.
  - destruct (radio_yes_checked (controls v)) as [[|]|]; simpl;
      intro H; reflexivity || now elim H.
  - intros s Hs. rewrite Hs. simpl of_string.
    destruct (radio_yes_checked (controls v)) as [[|]|]; simpl truthy; simpl negb;
      cbv beta iota; simpl orb;
      try (exists None; repeat split; intros; reflexivity || discriminate).
    simpl strict_eq. destruct (s =? "None")%string eqn:E; cbv iota.
    + exists None. repeat split; auto.
      apply String.eqb_eq in E. intros _ N. now elim N.
    + apply String.eqb_neq in E. eexists. split; [reflexivity|]. split.
      * intros [H|H]; [now elim H | now elim E].
      * intros _ _. rewrite split_colon. simpl nth_error. simpl string_arg.
        eapply first_such_ext; [|apply find_content_group_first].
        intro g. cbv beta. rewrite strict_eq_parsed.
        assert (P2 : parseInt (string_arg
                       (nth_error match after_colon s with
                                  | Some r => split ":" r
                                  | None => []
                                  end 0)) = parsed_after_colon s).
        { unfold parsed_after_colon. destruct (after_colon s) as [r|].
          - rewrite split_colon. simpl. apply parseInt_before_colon.
          - reflexivity. }
        simpl nth_error in P2. rewrite P2. unfold parsed_after_colon at 1.
        destruct (after_colon s) as [r|] eqn:A.
        -- rewrite strict_eq_parsed. unfold parsed_after_colon. rewrite A. tauto.
        -- unfold parsed_after_colon. rewrite A. unfold equals_parsed.
           split; [intros [_ H]; destruct (cg_attr_user_partition_id g); discriminate|].
           intros [_ [H _]]. now elim H.
Qed.

(** ** The methods with effects *)

Ltac run_methods :=
  unfold bind, this, emit, update, ret, lift, view_of, events_of, outcome_of;
  cbn [fst snd app].

Lemma view_of_triple {A : Type} (v : CohortFormView) (t : list event)
    (r : result A) : view_of (v, t, r) = v.
Proof. reflexivity. Qed.

Lemma events_of_triple {A : Type} (v : CohortFormView) (t : list event)
    (r : result A) : events_of (v, t, r) = t.
Proof. reflexivity. Qed.

Lemma outcome_of_triple {A : Type} (v : CohortFormView) (t : list event)
    (r : result A) : outcome_of (v, t, r) = r.
Proof. reflexivity. Qed.

Ltac project_triples :=
  rewrite ?view_of_triple, ?events_of_triple, ?outcome_of_triple.

Lemma removeNotification_eq (v : CohortFormView) :
  removeNotification v =
  match notification v with
  | Some n =>
      (set_displayed
         (filter (fun d => negb (fst d =? nv_ref n)%nat) (displayed v)) v,
       [NotificationRemoved (nv_ref n)], Ok tt)
  | None => (v, [], Ok tt)
  end.
Proof.
  unfold removeNotification. run_methods.
  destruct (notification v); reflexivity.
Qed.

Lemma showNotification_eq (o : NotificationOptions) (b : option place)
    (v : CohortFormView) :
  showNotification o b v =
  let v1 := view_of (removeNotification v) in
  let n := {| nv_ref := fresh v; nv_model := o |} in
  (set_displayed
     (match b with
      | Some p => (fresh v, p) :: displayed v1
      | None => displayed v1
      end)
     (set_notification (Some n) (set_fresh (S (fresh v)) v1)),
   events_of (removeNotification v)
   ++ NotificationCreated (fresh v) o
      :: match b with
         | Some p => [NotificationInserted (fresh v) p]
         | None => []
         end
   ++ [NotificationRendered (fresh v)],
   Ok tt).
Proof.
  rewrite removeNotification_eq.
  unfold showNotification, removeNotification. run_methods.
  destruct (notification v), b; reflexivity.
Qed.

Lemma showMessage_eq (m : value) (t : option string)
    (d : option (list string)) (v : CohortFormView) :
  showMessage m t d v =
  showNotification
    {| n_type := type_or_confirmation t; n_title := m; n_details := d |}
    (if has_form_fields (controls v) then Some InsideForm else None) v.
Proof.
  unfold showMessage. run_methods.
  destruct (showNotification _ _ v) as [[v' t'] r]. reflexivity.
Qed.

Lemma saveForm_eq (v : CohortFormView) :
  saveForm v =
  let r := removeNotification v in
  let isUpdate := negb (is_undefined (id (model v))) in
  match getSelectedContentGroup v with
  | Throw e => (view_of r, events_of r, Throw e)
  | Ok g =>
      let fieldData := fieldData_of v g in
      match validate v fieldData with
      | [] =>
          let options := {| patch := isUpdate; wait := true |} in
          (view_of r, events_of r ++ [SaveRequested fieldData options],
           Ok {| promise := Pending; awaiting := Some (fieldData, options) |})
      | errorMessages =>
          let m := showMessage
                     (VStr (if isUpdate then gettext "The cohort cannot be saved"
                            else gettext "The cohort cannot be added"))
                     (Some "error") (Some errorMessages) (view_of r) in
          (view_of m, events_of r ++ events_of m ++ [PromiseRejected],
           Ok {| promise := Rejected; awaiting := None |})
      end
  end.
Proof.
  rewrite removeNotification_eq.
  unfold saveForm, removeNotification. run_methods.
  destruct (notification v) as [n|]; cbn [fst snd app].
  - change (getSelectedContentGroup (set_displayed _ v))
      with (getSelectedContentGroup v).
    destruct (getSelectedContentGroup v) as [g|e]; [|reflexivity].
    change (fieldData_of (set_displayed _ v) g) with (fieldData_of v g).
    change (validate (set_displayed ?d v) ?f) with (validate v f).
    destruct (validate v (fieldData_of v g)) as [|e errs]; [reflexivity|].
    cbn [List.length Nat.ltb Nat.leb].
    rewrite !showMessage_eq, !showNotification_eq. reflexivity.
  - destruct (getSelectedContentGroup v) as [g|e]; [|reflexivity].
    destruct (validate v (fieldData_of v g)) as [|e errs]; [reflexivity|].
    cbn [List.length Nat.ltb Nat.leb].
    rewrite !showMessage_eq, !showNotification_eq. reflexivity.
Qed.

Lemma saveDone_eq (op : SaveOperation) (result : value)
    (v : CohortFormView) :
  saveDone op result v =
  match get_property result "id" with
  | Ok id' =>
      let v1 := set_model {| id := id'; attributes := attributes (model v) |} v in
      let c := {| tc_cohort := model v1;
                  tc_isDefaultCohort := isDefault v1 (name (attributes (model v1)));
                  tc_contentGroups := contentGroups v1;
                  tc_studioGroupConfigurationsUrl := context v1 |} in
      (set_controls (template c)
         (set_displayed
            (filter (fun d => negb (inside_form (snd d))) (displayed v1)) v1),
       [FormRendered c; PromiseResolved],
       Ok {| promise := resolve (promise op); awaiting := None |})
  | Throw e => (v, [], Throw e)
  end.
Proof.
  unfold saveDone, bind, lift. destruct (get_property result "id"); reflexivity.
Qed.

(** Reading a property raises exactly on [null] and [undefined]. *)
Lemma get_property_no_body (result : value) (key : string) :
  (no_body result = true -> get_property result key = Throw TypeError)
  /\ (no_body result = false -> exists x, get_property result key = Ok x).
Proof.
  destruct result; simpl; split; intro H; try discriminate; eauto.
Qed.

Lemma saveFail_eq (op : SaveOperation) (responseText : option string)
    (v : CohortFormView) :
  saveFail op responseText v =
  let errorMessage :=
    if truthy (response_error responseText) then response_error responseText
    else VStr (gettext default_error) in
  let m := showMessage errorMessage (Some "error") None v in
  (view_of m, events_of m ++ [PromiseRejected],
   Ok {| promise := reject (promise op); awaiting := None |}).
Proof.
  unfold saveFail. run_methods.
  rewrite !showMessage_eq, !showNotification_eq.
  destruct (truthy (response_error responseText)); reflexivity.
Qed.

(** *** Events of the methods *)

Lemma save_requests_app (t1 t2 : list event) :
  save_requests (t1 ++ t2) = save_requests t1 ++ save_requests t2.
Proof. apply flat_map_app. Qed.

Lemma settlements_app (t1 t2 : list event) :
  settlements (t1 ++ t2) = settlements t1 ++ settlements t2.
Proof. apply filter_app. Qed.

Lemma removeNotification_quiet (v : CohortFormView) :
  save_requests (events_of (removeNotification v)) = []
  /\ settlements (events_of (removeNotification v)) = [].
Proof.
  rewrite removeNotification_eq. destruct (notification v); split; reflexivity.
Qed.

Lemma showMessage_quiet (m : value) (t : option string)
    (d : option (list string)) (v : CohortFormView) :
  save_requests (events_of (showMessage m t d v)) = []
  /\ settlements (events_of (showMessage m t d v)) = [].
Proof.
  rewrite showMessage_eq, showNotification_eq, removeNotification_eq.
  destruct (notification v), (has_form_fields (controls v)); split; reflexivity.
Qed.

(** What [showMessage] leaves: the new notification is the one the view
    holds, it has been created and rendered, and it is displayed when the
    form has its fields. *)
Lemma showMessage_shows (m : value) (t : option string)
    (d : option (list string)) (v : CohortFormView) :
  let r := showMessage m t d v in
  let n := {| nv_ref := fresh v;
              nv_model := {| n_type := type_or_confirmation t;
                             n_title := m; n_details := d |} |} in
  notification (view_of r) = Some n
  /\ In (NotificationCreated (nv_ref n) (nv_model n)) (events_of r)
  /\ In (NotificationRendered (nv_ref n)) (events_of r)
  /\ (has_form_fields (controls v) = true ->
      In (nv_ref n, InsideForm) (displayed (view_of r)))
  /\ outcome_of r = Ok tt.
Proof.
  cbv zeta. rewrite showMessage_eq, showNotification_eq, removeNotification_eq.
  destruct (notification v), (has_form_fields (controls v));
    cbn; repeat split; auto; discriminate.
Qed.

(** *** One notification at a time *)

Lemma removeNotification_clears (v : CohortFormView) :
  displays_current v ->
  displayed (view_of (removeNotification v)) = [].
Proof.
  rewrite removeNotification_eq.
  intros [E | (n & p & En & Ed)].
  - destruct (notification v); cbn; rewrite E; reflexivity.
  - rewrite En. cbn. rewrite Ed. cbn. now rewrite Nat.eqb_refl.
Qed.

Lemma removeNotification_preserves :
  preserves displays_current removeNotification.
Proof.
  intros v H. left. now apply removeNotification_clears.
Qed.

Lemma showNotification_preserves (o : NotificationOptions) (b : option place) :
  preserves displays_current (showNotification o b).
Proof.
  intros v H. rewrite showNotification_eq.
  pose proof (removeNotification_clears v H) as C.
  cbv zeta. unfold view_of at 1. cbn [fst].
  destruct b as [p|].
  - right. exists {| nv_ref := fresh v; nv_model := o |}, p.
    split; [reflexivity|]. cbn [displayed set_displayed nv_ref]. now rewrite C.
  - left. cbn [displayed set_displayed]. exact C.
Qed.

Lemma showMessage_preserves (m : value) (t : option string)
    (d : option (list string)) :
  preserves displays_current (showMessage m t d).
Proof.
  intros v H. rewrite showMessage_eq. now apply showNotification_preserves.
Qed.

Lemma render_preserves : preserves displays_current render.
Proof.
  intros v H. unfold render. run_methods.
  unfold displays_current.
  cbn [displayed notification set_controls set_displayed].
  destruct H as [E | (n & p & En & Ed)].
  - left. now rewrite E.
  - rewrite Ed, En. cbn [filter snd].
    destruct (inside_form p); cbn [negb]; [now left|].
    right. exists n, p. split; reflexivity.
Qed.

Lemma saveForm_preserves : preserves displays_current saveForm.
Proof.
  intros v H. rewrite saveForm_eq. cbv zeta.
  pose proof (removeNotification_preserves v H) as R.
  destruct (getSelectedContentGroup v) as [g|e]; [|exact R].
  destruct (validate v (fieldData_of v g)); [exact R|].
  unfold view_of at 1. cbn [fst]. now apply showMessage_preserves.
Qed.

Lemma respond_preserves (op : SaveOperation) (r : response) :
  preserves displays_current (respond op r).
Proof.
  intros v H. unfold respond.
  destruct (awaiting op); [|exact H].
  destruct r as [saved result | responseText].
  - unfold bind, update. rewrite saveDone_eq.
    destruct (get_property result "id") as [id'|e]; [|exact H].
    cbv zeta. unfold view_of. cbn [fst].
    change (displays_current (view_of (render (set_model
              {| id := id'; attributes := saved |} v)))).
    apply render_preserves. exact H.
  - rewrite saveFail_eq. cbv zeta. unfold view_of at 1. cbn [fst].
    now apply showMessage_preserves.
Qed.

Lemma perform_preserves (a : action) (v : CohortFormView) :
  displays_current v -> displays_current (perform v a).
Proof.
  destruct a; simpl.
  - apply showNotification_preserves.
  - apply removeNotification_preserves.
  - apply render_preserves.
  - apply showMessage_preserves.
  - apply saveForm_preserves.
  - apply respond_preserves.
  - intro H. exact H.
Qed.

Lemma run_preserves (actions : list action) (v : CohortFormView) :
  displays_current v -> displays_current (run v actions).
Proof.
  revert v. induction actions as [|a rest IH]; intros v H; simpl; [exact H|].
  apply IH. now apply perform_preserves.
Qed.

(** C8: at most one notification of the view is displayed at any time.
    [showNotification] removes the notification that the view holds before
    it creates, inserts and renders the new one, which is then the only one
    displayed; [removeNotification] does nothing when the view holds no
    notification. *)
Theorem one_notification_at_a_time :
  (forall m c groups url actions,
     (List.length (displayed (run (initialize m c groups url) actions)) <= 1)%nat)
  /\ (forall o b v,
        displays_current v ->
        let r := showNotification o b v in
        events_of r =
          match notification v with
          | Some old => [NotificationRemoved (nv_ref old)]
          | None => []
          end
          ++ NotificationCreated (fresh v) o
             :: match b with
                | Some p => [NotificationInserted (fresh v) p]
                | None => []
                end
          ++ [NotificationRendered (fresh v)]
        /\ notification (view_of r) = Some {| nv_ref := fresh v; nv_model := o |}
        /\ displayed (view_of r) =
             match b with Some p => [(fresh v, p)] | None => [] end)
  /\ (forall v, notification v = None -> removeNotification v = (v, [], Ok tt)).
Proof.
  split; [|split].
  - intros m c groups url actions.
    assert (I : displays_current (run (initialize m c groups url) actions))
      by (apply run_preserves; left; reflexivity).
    destruct I as [-> | (n & p & _ & ->)]; simpl; lia.
  - intros o b v H. cbv zeta.
    pose proof (removeNotification_clears v H) as C.
    rewrite showNotification_eq. cbv zeta.
    rewrite removeNotification_eq in *.
    destruct (notification v), b; cbn in *; rewrite ?C; repeat split; reflexivity.
  - intros v H. rewrite removeNotification_eq. now rewrite H.
Qed.

(** *** Saving *)

Lemma respond_eq (op : SaveOperation) (r : response) (v : CohortFormView) :
  respond op r v =
  match awaiting op with
  | None => (v, [], Ok op)
  | Some _ =>
      match r with
      | Success saved result =>
          saveDone op result
            (set_model {| id := id (model v); attributes := saved |} v)
      | Failure responseText => saveFail op responseText v
      end
  end.
Proof.
  unfold respond. destruct (awaiting op); [|reflexivity].
  destruct r; [|reflexivity].
  unfold bind, update.
  destruct (saveDone _ _ _) as [[v2 t2] x]. reflexivity.
Qed.

Lemma saveForm_session_eq (r : option response) (v : CohortFormView) :
  saveForm_session r v =
  match saveForm v with
  | (v1, t1, Ok op) =>
      match r with
      | Some r' =>
          (view_of (respond op r' v1), t1 ++ events_of (respond op r' v1),
           outcome_of (respond op r' v1))
      | None => (v1, t1, Ok op)
      end
  | (v1, t1, Throw e) => (v1, t1, Throw e)
  end.
Proof.
  unfold saveForm_session, bind.
  destruct (saveForm v) as [[v1 t1] [op|e]]; [|reflexivity].
  destruct r as [r'|].
  - destruct (respond op r' v1) as [[v2 t2] x]. reflexivity.
  - unfold ret. now rewrite app_nil_r.
Qed.

Lemma respond_requests (op : SaveOperation) (r : response) (v : CohortFormView) :
  save_requests (events_of (respond op r v)) = [].
Proof.
  rewrite respond_eq. destruct (awaiting op); [|reflexivity].
  destruct r as [saved result | responseText].
  - rewrite saveDone_eq. destruct (get_property result "id"); reflexivity.
  - rewrite saveFail_eq. cbv zeta. unfold events_of at 1. cbn [fst snd].
    rewrite save_requests_app.
    now rewrite (proj1 (showMessage_quiet _ _ _ _)).
Qed.

Lemma respond_settles (op : SaveOperation) (r : response) (v : CohortFormView) :
  awaiting op <> None ->
  match r with
  | Success _ result =>
      if no_body result
      then settlements (events_of (respond op r v)) = []
           /\ outcome_of (respond op r v) = Throw TypeError
      else settlements (events_of (respond op r v)) = [PromiseResolved]
           /\ outcome_of (respond op r v) =
                Ok {| promise := resolve (promise op); awaiting := None |}
  | Failure _ =>
      settlements (events_of (respond op r v)) = [PromiseRejected]
      /\ outcome_of (respond op r v) =
           Ok {| promise := reject (promise op); awaiting := None |}
  end.
Proof.
  intro A. rewrite respond_eq. destruct (awaiting op); [|congruence].
  destruct r as [saved result | responseText].
  - rewrite saveDone_eq.
    destruct (get_property_no_body result "id") as [T O].
    destruct (no_body result).
    + rewrite (T eq_refl). split; reflexivity.
    + destruct (O eq_refl) as [x ->]. split; reflexivity.
  - rewrite saveFail_eq. cbv zeta. unfold events_of, outcome_of. cbn [fst snd].
    rewrite settlements_app.
    fold (events_of (showMessage
            (if truthy (response_error responseText)
             then response_error responseText
             else VStr (gettext default_error)) (Some "error") None v)).
    rewrite (proj2 (showMessage_quiet _ _ _ _)). split; reflexivity.
Qed.

Lemma removeNotification_reads (v : CohortFormView) :
  controls (view_of (removeNotification v)) = controls v
  /\ model (view_of (removeNotification v)) = model v
  /\ notification (view_of (removeNotification v)) = notification v.
Proof.
  rewrite removeNotification_eq.
  destruct (notification v) as [n|] eqn:E; repeat split; exact E.
Qed.

(** The save requests of a call of [saveForm] and of the end of its
    request. *)
Lemma saveForm_session_requests (r : option response) (v : CohortFormView) :
  save_requests (events_of (saveForm_session r v)) =
  match getSelectedContentGroup v with
  | Ok g =>
      match validate v (fieldData_of v g) with
      | [] => [(fieldData_of v g,
                {| patch := negb (is_undefined (id (model v))); wait := true |})]
      | _ :: _ => []
      end
  | Throw _ => []
  end.
Proof.
  pose proof (removeNotification_quiet v) as [Q1 _].
  rewrite saveForm_session_eq, saveForm_eq. cbv zeta.
  destruct (getSelectedContentGroup v) as [g|e].
  - destruct (validate v (fieldData_of v g)) as [|e errs].
    + destruct r as [r'|]; project_triples;
        rewrite ?save_requests_app, ?respond_requests, ?save_requests_app, Q1;
        reflexivity.
    + destruct r as [r'|]; project_triples;
        rewrite ?save_requests_app, ?respond_requests, ?save_requests_app, Q1,
                (proj1 (showMessage_quiet _ _ _ _)); reflexivity.
  - project_triples. exact Q1.
Qed.

(** C2: when [validate] returns a message, [saveForm] sends no save
    request, shows an error notification with the messages and returns a
    rejected promise; a save request is sent only when [validate] returned
    the empty list. *)
Theorem saveForm_rejects_invalid (v : CohortFormView) :
  (forall g,
     getSelectedContentGroup v = Ok g ->
     validate v (fieldData_of v g) <> [] ->
     let r := saveForm v in
     save_requests (events_of r) = []
     /\ (exists n,
           notification (view_of r) = Some n
           /\ n_type (nv_model n) = "error"
           /\ n_title (nv_model n) =
                VStr (gettext (if is_undefined (id (model v))
                               then "The cohort cannot be added"
                               else "The cohort cannot be saved"))
           /\ n_details (nv_model n) = Some (validate v (fieldData_of v g))
           /\ In (NotificationCreated (nv_ref n) (nv_model n)) (events_of r)
           /\ In (NotificationRendered (nv_ref n)) (events_of r)
           /\ (has_form_fields (controls v) = true ->
               In (nv_ref n, InsideForm) (displayed (view_of r))))
     /\ settlements (events_of r) = [PromiseRejected]
     /\ outcome_of r = Ok {| promise := Rejected; awaiting := None |})
  /\ (forall q,
        In q (save_requests (events_of (saveForm v))) ->
        exists g,
          getSelectedContentGroup v = Ok g
          /\ validate v (fieldData_of v g) = []
          /\ fst q = fieldData_of v g).
Proof.
  pose proof (removeNotification_quiet v) as [Q1 Q2].
  pose proof (removeNotification_reads v) as (Rc & Rm & Rn).
  split.
  - intros g Hg Hv. cbv zeta. rewrite saveForm_eq, Hg. cbv zeta.
    destruct (validate v (fieldData_of v g)) as [|e errs] eqn:V; [congruence|].
    set (m := showMessage _ _ _ _).
    pose proof (showMessage_quiet
                  (VStr (if negb (is_undefined (id (model v)))
                         then gettext "The cohort cannot be saved"
                         else gettext "The cohort cannot be added"))
                  (Some "error") (Some (e :: errs))
                  (view_of (removeNotification v))) as [S1 S2].
    pose proof (showMessage_shows
                  (VStr (if negb (is_undefined (id (model v)))
                         then gettext "The cohort cannot be saved"
                         else gettext "The cohort cannot be added"))
                  (Some "error") (Some (e :: errs))
                  (view_of (removeNotification v))) as (N & C & R & D & _).
    fold m in S1, S2, N, C, R, D. clearbody m. project_triples.
    rewrite !save_requests_app, !settlements_app, Q1, Q2, S1, S2.
    split; [reflexivity|]. split; [|split; reflexivity].
    eexists. split; [exact N|]. cbn [nv_model nv_ref n_type n_title n_details].
    repeat split.
    + destruct (is_undefined (id (model v))); reflexivity.
    + apply in_or_app. right. apply in_or_app. left. exact C.
    + apply in_or_app. right. apply in_or_app. left. exact R.
    + intro F. apply D. now rewrite Rc.
  - intros q. rewrite saveForm_eq. cbv zeta.
    destruct (getSelectedContentGroup v) as [g|e].
    + destruct (validate v (fieldData_of v g)) as [|e errs] eqn:V.
      * project_triples. rewrite save_requests_app, Q1. cbn.
        intros [<- | []]. exists g. repeat split. exact V.
      * project_triples. rewrite !save_requests_app, Q1.
        rewrite (proj1 (showMessage_quiet _ _ _ _)). intros [].
    + project_triples. rewrite Q1. intros [].
Qed.

(** C3: a call of [saveForm] whose form is valid sends exactly one save
    request, with the field data of the form; a call sends at most one
    request, also counting the end of its request.  The request is a
    partial update ([patch] is true) exactly when the id of the cohort
    model is defined, and a creation ([patch] is false) exactly when it is
    undefined. *)
Theorem saveForm_patch_iff_update (v : CohortFormView) (r : option response) :
  let requests := save_requests (events_of (saveForm_session r v)) in
  (List.length requests <= 1)%nat
  /\ Forall (fun q =>
               (patch (snd q) = true <-> id (model v) <> VUndefined)
               /\ (patch (snd q) = false <-> id (model v) = VUndefined)
               /\ wait (snd q) = true)
            requests
  /\ (forall g,
        getSelectedContentGroup v = Ok g ->
        validate v (fieldData_of v g) = [] ->
        exists options,
          requests = [(fieldData_of v g, options)]
          /\ wait options = true
          /\ (patch options = true <-> id (model v) <> VUndefined)
          /\ (patch options = false <-> id (model v) = VUndefined)).
Proof.
  cbv zeta. rewrite saveForm_session_requests.
  assert (P : (negb (is_undefined (id (model v))) = true
               <-> id (model v) <> VUndefined)
              /\ (negb (is_undefined (id (model v))) = false
                  <-> id (model v) = VUndefined))
    by (destruct (id (model v)); simpl; split; split; congruence).
  split; [|split].
  - destruct (getSelectedContentGroup v) as [g|e];
      [destruct (validate v (fieldData_of v g))|]; cbn; lia.
  - destruct (getSelectedContentGroup v) as [g|e];
      [destruct (validate v (fieldData_of v g))|]; cbn;
      repeat constructor; apply P.
  - intros g G V. rewrite G, V. eexists. split; [reflexivity|].
    cbn [patch wait]. split; [reflexivity | exact P].
Qed.

Lemma response_error_cases (responseText : option string) :
  (if truthy (response_error responseText) then response_error responseText
   else VStr (gettext default_error)) =
  match JSON_parse (string_arg responseText) with
  | Some (VObject props) =>
      match lookup "error" props with
      | Some e => if truthy e then e else VStr (gettext default_error)
      | None => VStr (gettext default_error)
      end
  | _ => VStr (gettext default_error)
  end.
Proof.
  unfold response_error.
  destruct (JSON_parse (string_arg responseText)) as [[]|]; try reflexivity.
  simpl get_property. destruct (lookup "error" props); reflexivity.
Qed.

(** C4: when a save request fails, an error notification is shown and the
    promise of [saveForm] is rejected.  The notification shows the [error]
    of the response when the body parses as JSON to an object whose
    [error] is truthy (for a string: not empty), and the translation of
    "We've encountered an error. Refresh your browser and then try again."
    in every other case. *)
Theorem save_failure_shows_error (v : CohortFormView)
    (g : option ContentGroupModel) (responseText : option string) :
  getSelectedContentGroup v = Ok g ->
  validate v (fieldData_of v g) = [] ->
  let r := saveForm_session (Some (Failure responseText)) v in
  let fallback :=
    VStr (gettext
      "We've encountered an error. Refresh your browser and then try again.") in
  (exists n,
     notification (view_of r) = Some n
     /\ n_type (nv_model n) = "error"
     /\ n_title (nv_model n) =
          match JSON_parse (string_arg responseText) with
          | Some (VObject props) =>
              match lookup "error" props with
              | Some e => if truthy e then e else fallback
              | None => fallback
              end
          | _ => fallback
          end
     /\ (forall props s,
           JSON_parse (string_arg responseText) = Some (VObject props) ->
           lookup "error" props = Some (VStr s) ->
           s <> "" ->
           n_title (nv_model n) = VStr s)
     /\ In (NotificationCreated (nv_ref n) (nv_model n)) (events_of r)
     /\ In (NotificationRendered (nv_ref n)) (events_of r)
     /\ (has_form_fields (controls v) = true ->
         In (nv_ref n, InsideForm) (displayed (view_of r))))
  /\ settlements (events_of r) = [PromiseRejected]
  /\ outcome_of r = Ok {| promise := Rejected; awaiting := None |}.
Proof.
  intros Hg Hv. cbv zeta.
  pose proof (removeNotification_quiet v) as [Q1 Q2].
  pose proof (removeNotification_reads v) as (Rc & Rm & Rn).
  rewrite saveForm_session_eq, saveForm_eq, Hg. cbv zeta. rewrite Hv.
  set (v1 := view_of (removeNotification v)) in *.
  set (op := {| promise := Pending; awaiting := _ |}).
  rewrite respond_eq. cbn [awaiting op]. rewrite saveFail_eq. cbv zeta.
  rewrite response_error_cases.
  set (title := match JSON_parse (string_arg responseText) with
                | Some (VObject props) => _
                | _ => _
                end).
  pose proof (showMessage_quiet title (Some "error") None v1) as [S1 S2].
  pose proof (showMessage_shows title (Some "error") None v1)
    as (N & C & R & D & _).
  set (m := showMessage title (Some "error") None v1) in *. clearbody m.
  project_triples.
  rewrite !settlements_app, Q2, S2. cbn [promise reject op].
  split; [|split; reflexivity].
  eexists. split; [exact N|]. cbn [nv_model nv_ref n_type n_title n_details].
  repeat split.
  - intros props s P L S. unfold title. rewrite P, L.
    simpl truthy. apply String.eqb_neq in S. now rewrite S.
  - apply in_or_app. right. apply in_or_app. left. exact C.
  - apply in_or_app. right. apply in_or_app. left. exact R.
  - intro F. apply D. now rewrite Rc.
Qed.

(** [saveForm] raises an exception exactly when the radio button 'yes'
    is checked and the select has no value; otherwise it returns. *)
Lemma saveForm_returns (v : CohortFormView) :
  (outcome_of (saveForm v) = Throw TypeError
   <-> radio_yes_checked (controls v) = Some true
       /\ group_association_val (controls v) = None)
  /\ (getSelectedContentGroup v = Throw TypeError
      <-> outcome_of (saveForm v) = Throw TypeError).
Proof.
  rewrite saveForm_eq. cbv zeta.
  unfold getSelectedContentGroup, hasAssociatedContentGroup.
  destruct (radio_yes_checked (controls v)) as [[|]|];
    destruct (group_association_val (controls v)) as [s|]; cbn;
    try destruct (s =? "None")%string; cbn;
    try match goal with
        | |- context [validate ?a ?b] => destruct (validate a b)
        end; project_triples;
    repeat split; try congruence; try tauto;
    try (intros [? ?]; congruence).
Qed.

(** C7, as amended: the promise that [saveForm] returns is settled at most
    once, and exactly once when validation fails, when the save fails, and
    when the save succeeds with a response body that is not [null] or
    absent.  While the save request has no response the promise is pending,
    or already rejected when validation failed.  With the response it has
    been rejected when validation or the save failed, and resolved when the
    save succeeded with a body, after the id of the model was set from the
    response and the form was rendered again; on a success whose body is
    [null] or absent the handler raises before it sets the id, renders or
    resolves.  The call sends at most one save request. *)
Theorem saveForm_settles_once (v : CohortFormView)
    (g : option ContentGroupModel) :
  getSelectedContentGroup v = Ok g ->
  let valid := match validate v (fieldData_of v g) with
               | [] => true
               | _ :: _ => false
               end in
  (let r := saveForm_session None v in
   settlements (events_of r) = (if valid then [] else [PromiseRejected])
   /\ exists op,
        outcome_of r = Ok op
        /\ promise op = (if valid then Pending else Rejected)
        /\ (awaiting op <> None <-> valid = true))
  /\ forall resp,
       let r := saveForm_session (Some resp) v in
       (List.length (save_requests (events_of r)) <= 1)%nat
       /\ (List.length (settlements (events_of r)) <= 1)%nat
       /\ match resp with
          | Failure _ =>
              settlements (events_of r) = [PromiseRejected]
              /\ outcome_of r = Ok {| promise := Rejected; awaiting := None |}
          | Success saved result =>
              if valid then
                if no_body result then
                  settlements (events_of r) = []
                  /\ outcome_of r = Throw TypeError
                  /\ id (model (view_of r)) = id (model v)
                  /\ forall c, ~ In (FormRendered c) (events_of r)
                else
                  settlements (events_of r) = [PromiseResolved]
                  /\ outcome_of r =
                       Ok {| promise := Resolved; awaiting := None |}
                  /\ get_property result "id" = Ok (id (model (view_of r)))
                  /\ exists t c,
                       events_of r = t ++ [FormRendered c; PromiseResolved]
                       /\ tc_cohort c = model (view_of r)
              else
                settlements (events_of r) = [PromiseRejected]
                /\ outcome_of r = Ok {| promise := Rejected; awaiting := None |}
          end.
Proof.
  intros Hg. cbv zeta.
  pose proof (removeNotification_quiet v) as [Q1 Q2].
  pose proof (removeNotification_reads v) as (_ & Rm & _).
  split.
  - rewrite saveForm_session_eq, saveForm_eq, Hg. cbv zeta.
    destruct (validate v (fieldData_of v g)) as [|e errs]; project_triples.
    + rewrite settlements_app, Q2. split; [reflexivity|].
      eexists. split; [reflexivity|]. cbn. repeat split; congruence.
    + rewrite !settlements_app, Q2, (proj2 (showMessage_quiet _ _ _ _)).
      split; [reflexivity|].
      eexists. split; [reflexivity|]. cbn. repeat split; congruence.
  - intro resp.
    split.
    { rewrite saveForm_session_requests, Hg.
      destruct (validate v (fieldData_of v g)); cbn; lia. }
    rewrite saveForm_session_eq, saveForm_eq, Hg. cbv zeta.
    destruct (validate v (fieldData_of v g)) as [|e errs].
    + set (op := {| promise := Pending; awaiting := _ |}).
      set (v1 := view_of (removeNotification v)) in *.
      assert (A : awaiting op <> None) by (unfold op; cbn; congruence).
      pose proof (respond_settles op resp v1 A) as S.
      project_triples. rewrite !settlements_app, Q2. cbn [app].
      destruct resp as [saved result | responseText].
      * destruct (get_property_no_body result "id") as [T O].
        destruct (no_body result) eqn:B.
        -- destruct S as [S X]. rewrite S, X. split; [cbn; lia|].
           split; [reflexivity|]. split; [reflexivity|].
           rewrite respond_eq. cbn [awaiting op]. rewrite saveDone_eq.
           rewrite (T eq_refl). project_triples.
           split; [cbn; now rewrite Rm|].
           rewrite app_nil_r. unfold v1. rewrite removeNotification_eq.
           destruct (notification v); project_triples; cbn;
             intros c H; repeat (destruct H as [H|H]; [discriminate|]);
             exact H.
        -- destruct S as [S X]. rewrite S, X. split; [cbn; lia|].
           split; [reflexivity|]. split; [reflexivity|].
           rewrite respond_eq. cbn [awaiting op]. rewrite saveDone_eq.
           destruct (O eq_refl) as [x E]. rewrite E. cbv zeta.
           project_triples. split; [reflexivity|].
           eexists. eexists. split; reflexivity.
      * destruct S as [S X]. rewrite S, X. split; [cbn; lia|].
        split; reflexivity.
    + project_triples. rewrite respond_eq. cbn [awaiting].
      project_triples. rewrite !settlements_app, Q2,
        (proj2 (showMessage_quiet _ _ _ _)).
      split; [cbn; lia|].
      destruct resp; split; reflexivity.
Qed.

(** ** Further properties of the form view *)

(** *** What the methods read and leave alone *)

Lemma same_reads_refl (v : CohortFormView) : same_reads v v.
Proof. repeat split. Qed.

Lemma same_reads_trans (a b c : CohortFormView) :
  same_reads a b -> same_reads b c -> same_reads a c.
Proof.
  unfold same_reads. intros (A1 & A2 & A3 & A4 & A5) (B1 & B2 & B3 & B4 & B5).
  repeat split; congruence.
Qed.

Lemma removeNotification_same_reads (v : CohortFormView) :
  same_reads v (view_of (removeNotification v)).
Proof.
  rewrite removeNotification_eq. destruct (notification v); repeat split.
Qed.

Lemma removeNotification_twice (v : CohortFormView) :
  view_of (removeNotification (view_of (removeNotification v)))
  = view_of (removeNotification v).
Proof.
  rewrite !removeNotification_eq. destruct (notification v) as [n|] eqn:N.
  - project_triples. cbn [notification set_displayed]. rewrite N.
    project_triples. unfold set_displayed. cbn. f_equal.
    induction (displayed v) as [|d l IH]; [reflexivity|].
    cbn. destruct (negb (fst d =? nv_ref n)%nat) eqn:E; cbn; rewrite ?E;
      now rewrite IH.
  - project_triples. rewrite N. reflexivity.
Qed.

Lemma showMessage_same_reads (m : value) (t : option string)
    (d : option (list string)) (v : CohortFormView) :
  same_reads v (view_of (showMessage m t d v)).
Proof.
  rewrite showMessage_eq, showNotification_eq, removeNotification_eq.
  destruct (notification v), (has_form_fields (controls v)); repeat split.
Qed.

Lemma saveForm_same_reads (v : CohortFormView) :
  same_reads v (view_of (saveForm v)).
Proof.
  rewrite saveForm_eq. cbv zeta.
  pose proof (removeNotification_same_reads v) as R.
  destruct (getSelectedContentGroup v) as [g|e]; [|exact R].
  destruct (validate v (fieldData_of v g)); [exact R|].
  project_triples. eapply same_reads_trans; [exact R|].
  apply showMessage_same_reads.
Qed.

Lemma same_reads_getSelectedContentGroup (v v' : CohortFormView) :
  same_reads v v' -> getSelectedContentGroup v' = getSelectedContentGroup v.
Proof.
  intros (_ & _ & G & _ & C).
  unfold getSelectedContentGroup, hasAssociatedContentGroup. now rewrite G, C.
Qed.

Lemma same_reads_fieldData_of (v v' : CohortFormView)
    (g : option ContentGroupModel) :
  same_reads v v' -> fieldData_of v' g = fieldData_of v g.
Proof.
  intros (M & _ & _ & _ & C).
  unfold fieldData_of, getUpdatedCohortName, getAssignmentType.
  now rewrite M, C.
Qed.

Lemma same_reads_validate (v v' : CohortFormView) (d : FieldData) :
  same_reads v v' -> validate v' d = validate v d.
Proof.
  intros (_ & _ & _ & _ & C). unfold validate, hasAssociatedContentGroup.
  now rewrite C.
Qed.

(** The save requests of a call of [saveForm]. *)
Lemma saveForm_requests (v : CohortFormView) :
  save_requests (events_of (saveForm v)) =
  match getSelectedContentGroup v with
  | Ok g =>
      match validate v (fieldData_of v g) with
      | [] => [(fieldData_of v g,
                {| patch := negb (is_undefined (id (model v))); wait := true |})]
      | _ :: _ => []
      end
  | Throw _ => []
  end.
Proof.
  pose proof (removeNotification_quiet v) as [Q1 _].
  rewrite saveForm_eq. cbv zeta.
  destruct (getSelectedContentGroup v) as [g|e]; [|project_triples; exact Q1].
  destruct (validate v (fieldData_of v g)); project_triples;
    rewrite ?save_requests_app, Q1, ?(proj1 (showMessage_quiet _ _ _ _));
    reflexivity.
Qed.

(** X1: [saveForm] raises a TypeError exactly when the radio button 'yes'
    is checked while the select has no value.  It has then only removed
    the notification that the view held: no save request was sent and the
    deferred object was neither resolved nor rejected. *)
Theorem saveForm_throws (v : CohortFormView) :
  (outcome_of (saveForm v) = Throw TypeError
   <-> radio_yes_checked (controls v) = Some true
       /\ group_association_val (controls v) = None)
  /\ (outcome_of (saveForm v) = Throw TypeError ->
      events_of (saveForm v) =
        match notification v with
        | Some n => [NotificationRemoved (nv_ref n)]
        | None => []
        end
      /\ save_requests (events_of (saveForm v)) = []
      /\ settlements (events_of (saveForm v)) = []
      /\ notification (view_of (saveForm v)) = notification v
      /\ same_reads v (view_of (saveForm v))).
Proof.
  split.
  - rewrite saveForm_eq. cbv zeta.
    unfold getSelectedContentGroup, hasAssociatedContentGroup.
    destruct (radio_yes_checked (controls v)) as [[|]|];
      destruct (group_association_val (controls v)) as [s|]; cbn;
      try destruct (s =? "None")%string; cbn;
      try match goal with
          | |- context [validate ?a ?b] => destruct (validate a b)
          end; project_triples;
      split; try discriminate; try (intros [? ?]; discriminate); auto.
  - intro T. pose proof (saveForm_same_reads v) as S.
    pose proof (removeNotification_reads v) as (_ & _ & N).
    revert T S. rewrite saveForm_eq. cbv zeta.
    destruct (getSelectedContentGroup v) as [g|e].
    + destruct (validate v (fieldData_of v g)); project_triples; discriminate.
    + project_triples. intros _ S.
      rewrite removeNotification_eq in *.
      destruct (notification v); project_triples; repeat split; auto; apply S.
Qed.

(** X2: [removeNotification] takes the notification that the view holds
    out of the page and nothing else; the view goes on holding it, and a
    second call changes nothing more. *)
Theorem removeNotification_idempotent (v : CohortFormView) :
  let v1 := view_of (removeNotification v) in
  notification v1 = notification v
  /\ same_reads v v1
  /\ (forall d, In d (displayed v1) <->
                In d (displayed v)
                /\ forall n, notification v = Some n -> fst d <> nv_ref n)
  /\ view_of (removeNotification v1) = v1.
Proof.
  cbv zeta. pose proof (removeNotification_same_reads v) as S.
  split; [apply removeNotification_reads|]. split; [exact S|].
  split; [|apply removeNotification_twice].
  rewrite removeNotification_eq. destruct (notification v) as [n|] eqn:N;
    project_triples; intro d.
  - cbn [displayed set_displayed]. rewrite filter_In.
    rewrite negb_true_iff, Nat.eqb_neq. split.
    + intros [I D]. split; [exact I|]. intros m E. congruence.
    + intros [I D]. split; [exact I|]. now apply D.
  - split; [intro I; split; [exact I | discriminate] | tauto].
Qed.

(** X3: a failed save, a save whose response has not arrived and a call
    that sent no request leave the cohort model, its collection, the
    content groups and the form controls as they were. *)
Theorem failed_save_keeps_model (v : CohortFormView) (r : option response) :
  r = None
  \/ (exists responseText, r = Some (Failure responseText))
  \/ save_requests (events_of (saveForm v)) = [] ->
  same_reads v (view_of (saveForm_session r v)).
Proof.
  intro H. pose proof (saveForm_same_reads v) as S.
  rewrite saveForm_session_eq.
  assert (Q : save_requests (events_of (saveForm v)) = [] ->
              forall op, outcome_of (saveForm v) = Ok op -> awaiting op = None).
  { rewrite saveForm_requests, saveForm_eq. cbv zeta.
    destruct (getSelectedContentGroup v) as [g|e]; [|discriminate].
    destruct (validate v (fieldData_of v g)); project_triples;
      [discriminate|]. intros _ op E. now injection E as <-. }
  destruct (saveForm v) as [[v1 t1] [op|e]]; [|exact S].
  unfold view_of in S. cbn [fst] in S.
  destruct r as [[saved result | responseText]|]; project_triples;
    try exact S.
  - destruct H as [H | [[t H] | H]]; try discriminate.
    rewrite respond_eq, (Q H op eq_refl). exact S.
  - rewrite respond_eq. destruct (awaiting op); [|exact S].
    rewrite saveFail_eq. cbv zeta. project_triples.
    eapply same_reads_trans; [exact S|]. apply showMessage_same_reads.
Qed.

(** X4: [saveForm] has no guard against a second call: called again before
    the response of the first call, it sends the same request again. *)
Theorem saveForm_again_same_request (v : CohortFormView) :
  save_requests (events_of (saveForm (view_of (saveForm v)))) =
  save_requests (events_of (saveForm v)).
Proof.
  pose proof (saveForm_same_reads v) as S.
  rewrite !saveForm_requests.
  rewrite (same_reads_getSelectedContentGroup _ _ S).
  destruct (getSelectedContentGroup v) as [g|e]; [|reflexivity].
  rewrite (same_reads_fieldData_of _ _ g S), (same_reads_validate _ _ _ S).
  destruct S as (-> & _). reflexivity.
Qed.

(** X5: whatever is done with a view after [initialize], a notification
    that is displayed is the one the view holds in [this.notification]. *)
Theorem displayed_notification_is_held (m : CohortModel)
    (c : option (list member)) (groups : list ContentGroupModel)
    (url : string) (actions : list action) (d : nat * place) :
  In d (displayed (run (initialize m c groups url) actions)) ->
  exists n,
    notification (run (initialize m c groups url) actions) = Some n
    /\ nv_ref n = fst d
    /\ displayed (run (initialize m c groups url) actions) = [d].
Proof.
  assert (I : displays_current (run (initialize m c groups url) actions))
    by (apply run_preserves; left; reflexivity).
  destruct I as [E | (n & p & N & E)]; rewrite E.
  - intros [].
  - intros [<- | []]. exists n. repeat split. exact N.
Qed.

(** *** What a save request carries *)

Lemma selected_ids (s : string) :
  parseInt (string_arg (nth_error (split ":" s) 0)) = parseInt (before_colon s)
  /\ parseInt (string_arg (nth_error (split ":" s) 1)) = parsed_after_colon s.
Proof.
  rewrite split_colon. split; [reflexivity|].
  unfold parsed_after_colon. simpl nth_error.
  destruct (after_colon s) as [r|]; [|reflexivity].
  rewrite split_colon. simpl. apply parseInt_before_colon.
Qed.

Lemma strict_eq_parsed_after (x : value) (s : string) :
  strict_eq x (parsed_after_colon s) = true
  <-> equals_parsed x (parsed_after_colon s).
Proof.
  unfold parsed_after_colon. destruct (after_colon s) as [r|].
  - apply strict_eq_parsed.
  - unfold equals_parsed. split.
    + destruct x; discriminate.
    + intros [H _]. now elim H.
Qed.

(** What the result of [getSelectedContentGroup] tells about the form. *)
Lemma getSelectedContentGroup_found (v : CohortFormView)
    (r : option ContentGroupModel) :
  getSelectedContentGroup v = Ok r ->
  match r with
  | Some g =>
      radio_yes_checked (controls v) = Some true
      /\ exists s, group_association_val (controls v) = Some s
                   /\ s <> "None"
                   /\ In g (contentGroups v)
                   /\ named_by s g
  | None =>
      radio_yes_checked (controls v) <> Some true
      \/ group_association_val (controls v) = Some "None"
      \/ exists s, group_association_val (controls v) = Some s
                   /\ Forall (fun x => ~ named_by s x) (contentGroups v)
  end.
Proof.
  unfold getSelectedContentGroup, hasAssociatedContentGroup.
  destruct (radio_yes_checked (controls v)) as [[|]|];
    simpl truthy; simpl negb; cbn [orb];
    try (intro E; injection E as <-; left; discriminate).
  destruct (group_association_val (controls v)) as [s|];
    simpl of_string; simpl strict_eq; cbv iota; [|discriminate].
  destruct (s =? "None")%string eqn:N.
  - apply String.eqb_eq in N. subst s. intro E. injection E as <-.
    right. left. reflexivity.
  - apply String.eqb_neq in N. destruct (selected_ids s) as [-> ->].
    intro E. injection E as <-.
    pose proof (find_content_group_first (parseInt (before_colon s))
                  (parsed_after_colon s) (contentGroups v)) as F.
    apply (first_such_ext _ (named_by s)) in F.
    2:{ intro x. unfold named_by.
        rewrite strict_eq_parsed, strict_eq_parsed_after. reflexivity. }
    destruct (find_content_group _ _ _) as [g|]; cbn in F.
    + destruct F as (l1 & l2 & L & P & _). split; [reflexivity|].
      exists s. repeat split; try apply P; auto.
      rewrite L. apply in_or_app. right. left. reflexivity.
    + right. right. exists s. split; [reflexivity | exact F].
Qed.

Lemma saveForm_request_valid (v : CohortFormView) (q : FieldData * SaveOptions) :
  In q (save_requests (events_of (saveForm v))) ->
  exists g,
    getSelectedContentGroup v = Ok g
    /\ validate v (fieldData_of v g) = []
    /\ fst q = fieldData_of v g.
Proof.
  rewrite saveForm_requests.
  destruct (getSelectedContentGroup v) as [g|e]; [|intros []].
  destruct (validate v (fieldData_of v g)) eqn:V; [|intros []].
  intros [<- | []]. exists g. repeat split. exact V.
Qed.

Lemma validate_empty (v : CohortFormView) (d : FieldData) :
  validate v d = [] ->
  truthy (fd_name d) = true
  /\ (radio_yes_checked (controls v) = Some true -> fd_group_id d <> VNull).
Proof.
  unfold validate, hasAssociatedContentGroup.
  destruct (truthy (fd_name d));
    destruct (radio_yes_checked (controls v)) as [[|]|];
    destruct (strict_eq (fd_group_id d) VNull) eqn:G;
    destruct (strict_eq (of_string (group_association_val (controls v)))
                (VStr "None"));
    cbn; intro H; try discriminate;
    (split; [reflexivity|]); intro R; try discriminate;
    intro E; rewrite E in G; discriminate.
Qed.

(** X6: a save request sent while the radio button 'yes' is not checked
    carries [null] for [group_id] and [user_partition_id].  One sent while
    it is checked carries the [id] and the [user_partition_id] of a content
    group of [contentGroups] that the select value names, and its
    [group_id] is not [null]. *)
Theorem save_request_group (v : CohortFormView) (q : FieldData * SaveOptions) :
  In q (save_requests (events_of (saveForm v))) ->
  (radio_yes_checked (controls v) <> Some true ->
   fd_group_id (fst q) = VNull /\ fd_user_partition_id (fst q) = VNull)
  /\ (radio_yes_checked (controls v) = Some true ->
      exists s g,
        group_association_val (controls v) = Some s
        /\ s <> "None"
        /\ In g (contentGroups v)
        /\ named_by s g
        /\ fd_group_id (fst q) = cg_id g
        /\ cg_id g <> VNull
        /\ fd_user_partition_id (fst q) = cg_attr_user_partition_id g).
Proof.
  intro Q. destruct (saveForm_request_valid v q Q) as (g & G & V & ->).
  apply validate_empty in V as [_ V].
  apply getSelectedContentGroup_found in G.
  destruct g as [g|]; cbn [fieldData_of fd_group_id fd_user_partition_id] in *.
  - destruct G as (R & s & S & N & I & B). split; [congruence|].
    intros _. exists s, g. repeat split; auto; apply B.
  - split; [split; reflexivity|]. intro R. now elim (V R).
Qed.

(** X7: the name that a save request carries is a string that is not
    empty: the trimmed value of the name input when the input has a value
    that is not empty, and otherwise the current name of the model.  Its
    assignment type is the value of the checked assignment radio button. *)
Theorem save_request_name (v : CohortFormView) (q : FieldData * SaveOptions) :
  In q (save_requests (events_of (saveForm v))) ->
  exists s,
    fd_name (fst q) = VStr s
    /\ s <> ""
    /\ match cohort_name_val (controls v) with
       | None | Some EmptyString => name (attributes (model v)) = Some s
       | Some input => s = trim input
       end
    /\ fd_assignment_type (fst q) = of_string (assignment_type_val (controls v)).
Proof.
  intro Q. destruct (saveForm_request_valid v q Q) as (g & _ & V & ->).
  apply validate_empty in V as [V _].
  cbn [fieldData_of fd_name fd_assignment_type] in *.
  unfold getUpdatedCohortName, getAssignmentType in *.
  destruct (cohort_name_val (controls v)) as [[|c i]|].
  - simpl truthy in V. cbv iota in V.
    destruct (name (attributes (model v))) as [s|]; [|discriminate].
    exists s. repeat split. intros ->. discriminate.
  - simpl truthy in *. cbv iota in *. exists (trim (String c i)).
    repeat split. intro E. rewrite E in V. discriminate.
  - destruct (name (attributes (model v))) as [s|]; [|discriminate].
    exists s. repeat split. intros ->. discriminate.
Qed.

Lemma trim_all_whitespace (s : string) : all_whitespace s -> trim s = "".
Proof.
  unfold trim, all_whitespace. intro W.
  assert (E : trim_start s = "").
  { induction s as [|c r IH]; [reflexivity|].
    simpl in W. inversion W as [|? ? Wc Wr]. subst. simpl.
    rewrite Wc. now apply IH. }
  now rewrite E.
Qed.

(** X8: a name typed as white space only is not replaced by the current
    name of the model: [getUpdatedCohortName] returns the empty string,
    [validate] asks for a name and [saveForm] sends no request and returns
    a rejected promise. *)
Theorem blank_name_rejected (v : CohortFormView) (input : string) :
  cohort_name_val (controls v) = Some input ->
  input <> "" ->
  all_whitespace input ->
  getUpdatedCohortName v = Some ""
  /\ save_requests (events_of (saveForm v)) = []
  /\ forall g,
       getSelectedContentGroup v = Ok g ->
       (exists rest,
          validate v (fieldData_of v g) =
            gettext "You must specify a name for the cohort" :: rest)
       /\ outcome_of (saveForm v) = Ok {| promise := Rejected; awaiting := None |}.
Proof.
  intros I N W.
  assert (U : getUpdatedCohortName v = Some "").
  { unfold getUpdatedCohortName. rewrite I.
    destruct input as [|c r]; [congruence|].
    simpl truthy. cbv iota. now rewrite trim_all_whitespace. }
  assert (V : forall g, exists rest,
            validate v (fieldData_of v g) =
              gettext "You must specify a name for the cohort" :: rest).
  { intro g. unfold validate, fieldData_of. cbn [fd_name]. rewrite U.
    simpl truthy. simpl negb. cbv iota. cbn [app].
    destruct (_ && _); [destruct (strict_eq _ _)|]; eauto. }
  split; [exact U|]. split.
  - rewrite saveForm_requests.
    destruct (getSelectedContentGroup v) as [g|e]; [|reflexivity].
    destruct (V g) as (rest & ->). reflexivity.
  - intros g G. split; [apply V|].
    rewrite saveForm_eq, G. cbv zeta.
    destruct (V g) as (rest & ->). reflexivity.
Qed.

(** X9: with the radio button 'yes' checked and content groups whose [id]
    is not [null], the message about the content group that [saveForm]
    gets from [validate] is 'You did not select a content group' for the
    select value 'None', 'The selected content group does not exist' for a
    value that names no content group of [contentGroups], and none for a
    value that names one. *)
Theorem group_message (v : CohortFormView) (s : string)
    (g : option ContentGroupModel) :
  radio_yes_checked (controls v) = Some true ->
  group_association_val (controls v) = Some s ->
  (forall x, In x (contentGroups v) -> cg_id x <> VNull) ->
  getSelectedContentGroup v = Ok g ->
  validate v (fieldData_of v g) =
    (if truthy (of_string (getUpdatedCohortName v)) then []
     else [gettext "You must specify a name for the cohort"])
    ++ (if (s =? "None")%string
        then [gettext "You did not select a content group"]
        else if existsb (fun x => strict_eq (cg_attr_id x) (parseInt (before_colon s))
                                  && strict_eq (cg_attr_user_partition_id x)
                                               (parsed_after_colon s))
                        (contentGroups v)
             then []
             else [gettext "The selected content group does not exist"])
  /\ (s <> "None" ->
      (g = None <-> Forall (fun x => ~ named_by s x) (contentGroups v))).
Proof.
  intros R S I G.
  pose proof (getSelectedContentGroup_found v g G) as F.
  assert (X : forall l,
            existsb (fun x => strict_eq (cg_attr_id x) (parseInt (before_colon s))
                              && strict_eq (cg_attr_user_partition_id x)
                                           (parsed_after_colon s)) l = false
            <-> Forall (fun x => ~ named_by s x) l).
  { induction l as [|x l IH]; cbn.
    - split; [constructor | reflexivity].
    - rewrite orb_false_iff, IH. split.
      + intros [A B]. constructor; [|exact B]. intros [N1 N2].
        apply strict_eq_parsed in N1. apply strict_eq_parsed_after in N2.
        rewrite N1, N2 in A. discriminate.
      + intro H. inversion H as [|? ? A B]. subst. split; [|exact B].
        destruct (strict_eq (cg_attr_id x) _ && _) eqn:E; [|reflexivity].
        apply andb_true_iff in E as [E1 E2]. elim A.
        split; [apply strict_eq_parsed | apply strict_eq_parsed_after];
          assumption. }
  assert (P : s <> "None" ->
              (g = None <-> Forall (fun x => ~ named_by s x) (contentGroups v))).
  { intro N. destruct g as [g|].
    - destruct F as (_ & s' & S' & _ & In' & B).
      assert (s' = s) by congruence. subst s'.
      split; [discriminate|]. intro A.
      rewrite Forall_forall in A. now elim (A g In').
    - split; [|reflexivity]. intros _.
      destruct F as [F | [F | (s' & S' & F)]]; try congruence.
      assert (s' = s) by congruence. now subst s'. }
  split; [|exact P].
  unfold validate, hasAssociatedContentGroup, fieldData_of.
  cbn [fd_name fd_group_id]. rewrite R, S. simpl truthy at 2. cbn [andb].
  simpl of_string at 2. simpl strict_eq at 2.
  destruct (truthy (of_string (getUpdatedCohortName v))); cbn [negb app];
    (destruct (s =? "None")%string eqn:N;
     [ apply String.eqb_eq in N; subst s;
       destruct g as [g|];
       [ destruct F as (_ & s' & S' & N' & _); congruence | reflexivity ]
     | apply String.eqb_neq in N; specialize (P N);
       destruct g as [g|];
       [ destruct F as (_ & _ & _ & _ & In' & _);
         destruct (strict_eq (cg_id g) VNull) eqn:Z;
         [ apply strict_eq_null in Z; now elim (I g In') |];
         destruct (existsb _ _) eqn:E; [reflexivity|];
         apply X in E; apply P in E; discriminate
       | simpl strict_eq;
         destruct (existsb _ _) eqn:E; [|reflexivity];
         assert (E' : existsb (fun x => strict_eq (cg_attr_id x)
                                          (parseInt (before_colon s))
                                        && strict_eq (cg_attr_user_partition_id x)
                                             (parsed_after_colon s))
                        (contentGroups v) = false)
           by (apply X, P; reflexivity);
         congruence ] ]).
Qed.

(** *** Forms without their elements *)

(** X10: on a form none of whose controls exists, as before the first
    rendering, [saveForm] takes the name from the model and no content
    group: when that name is a string that is not empty it sends the
    request with this name, [null] for the group and an undefined
    assignment type; otherwise it sends nothing, returns a rejected promise
    and its error notification is inserted nowhere. *)
Theorem saveForm_without_controls (v : CohortFormView) :
  controls v = no_controls ->
  let fieldData := {| fd_name := of_string (name (attributes (model v)));
                      fd_group_id := VNull;
                      fd_user_partition_id := VNull;
                      fd_assignment_type := VUndefined |} in
  (truthy (fd_name fieldData) = true ->
   save_requests (events_of (saveForm v)) =
     [(fieldData,
       {| patch := negb (is_undefined (id (model v))); wait := true |})]
   /\ settlements (events_of (saveForm v)) = [])
  /\ (truthy (fd_name fieldData) = false ->
      save_requests (events_of (saveForm v)) = []
      /\ outcome_of (saveForm v) = Ok {| promise := Rejected; awaiting := None |}
      /\ displayed (view_of (saveForm v))
         = displayed (view_of (removeNotification v))).
Proof.
  intro C. cbv zeta.
  assert (G : getSelectedContentGroup v = Ok None)
    by (unfold getSelectedContentGroup, hasAssociatedContentGroup;
        now rewrite C).
  assert (F : fieldData_of v None =
              {| fd_name := of_string (name (attributes (model v)));
                 fd_group_id := VNull; fd_user_partition_id := VNull;
                 fd_assignment_type := VUndefined |})
    by (unfold fieldData_of, getUpdatedCohortName, getAssignmentType;
        now rewrite C).
  assert (V : validate v (fieldData_of v None) =
              if truthy (of_string (name (attributes (model v)))) then []
              else [gettext "You must specify a name for the cohort"]).
  { rewrite F. unfold validate, hasAssociatedContentGroup. rewrite C.
    cbn. now destruct (truthy _). }
  pose proof (removeNotification_quiet v) as [_ Q2].
  pose proof (removeNotification_reads v) as (Rc & _ & _).
  cbn [fd_name]. split; intro T.
  - rewrite saveForm_requests, saveForm_eq, G. cbv zeta. rewrite V, T, F.
    project_triples. rewrite settlements_app, Q2. split; reflexivity.
  - rewrite saveForm_requests, saveForm_eq, G. cbv zeta. rewrite V, T.
    project_triples. split; [reflexivity|]. split; [reflexivity|].
    rewrite showMessage_eq, Rc, C. cbn [has_form_fields no_controls].
    rewrite showNotification_eq. cbv zeta. project_triples.
    cbn [displayed set_displayed]. now rewrite removeNotification_twice.
Qed.

(** X11: in a form without the element [.form-fields], [showMessage]
    creates and renders the notification and the view holds it, but its
    element is inserted nowhere: nothing is displayed afterwards. *)
Theorem showMessage_without_form_fields (m : value) (t : option string)
    (d : option (list string)) (v : CohortFormView) :
  has_form_fields (controls v) = false ->
  displays_current v ->
  let r := showMessage m t d v in
  displayed (view_of r) = []
  /\ exists n,
       notification (view_of r) = Some n
       /\ n_title (nv_model n) = m
       /\ n_details (nv_model n) = d
       /\ In (NotificationCreated (nv_ref n) (nv_model n)) (events_of r)
       /\ In (NotificationRendered (nv_ref n)) (events_of r)
       /\ forall p, ~ In (NotificationInserted (nv_ref n) p) (events_of r).
Proof.
  intros F D. cbv zeta.
  pose proof (removeNotification_clears v D) as C.
  rewrite showMessage_eq, F, showNotification_eq. cbv zeta. project_triples.
  cbn [displayed set_displayed]. split; [exact C|].
  eexists. split; [reflexivity|]. cbn [nv_model nv_ref n_title n_details].
  rewrite removeNotification_eq.
  destruct (notification v); project_triples; cbn [app];
    repeat split; cbn; auto;
    intros p H; repeat (destruct H as [H|H]; [discriminate|]); exact H.
Qed.

(** *** After a successful save *)

Lemma session_success_view (v : CohortFormView)
    (g : option ContentGroupModel) (saved : CohortAttributes)
    (result : value) :
  getSelectedContentGroup v = Ok g ->
  validate v (fieldData_of v g) = [] ->
  let v' := view_of (saveForm_session (Some (Success saved result)) v) in
  collection v' = collection v
  /\ contentGroups v' = contentGroups v
  /\ context v' = context v
  /\ notification v' = notification v
  /\ if no_body result then
       model v' = {| id := id (model v); attributes := saved |}
       /\ displayed v' = displayed (view_of (removeNotification v))
       /\ controls v' = controls v
     else
       exists id',
         get_property result "id" = Ok id'
         /\ model v' = {| id := id'; attributes := saved |}
         /\ displayed v' =
              filter (fun d => negb (inside_form (snd d)))
                     (displayed (view_of (removeNotification v)))
         /\ exists c, controls v' = template c
                      /\ tc_cohort c = {| id := id'; attributes := saved |}.
Proof.
  intros G V. cbv zeta.
  rewrite saveForm_session_eq, saveForm_eq, G. cbv zeta. rewrite V.
  project_triples. rewrite respond_eq. cbn [awaiting].
  rewrite saveDone_eq.
  destruct (get_property_no_body result "id") as [T O].
  destruct (no_body result).
  - rewrite (T eq_refl). project_triples. rewrite removeNotification_eq.
    destruct (notification v) eqn:N; project_triples; cbn;
      repeat split; auto.
  - destruct (O eq_refl) as [x E]. rewrite E. cbv zeta. project_triples.
    rewrite removeNotification_eq.
    destruct (notification v) eqn:N; project_triples; cbn;
      repeat split; auto; exists x; repeat split;
      eexists; split; reflexivity.
Qed.

(** X12: after a successful save with a response body the id of the model
    is the [id] of the body ([undefined] when it has none), so a following
    call of [saveForm] sends a partial update when the body had an [id],
    and a creation again when it had none.  When the body is [null] or
    absent the handler raises before it sets the id: the model keeps its
    id, and a following call sends what the first one sent. *)
Theorem next_save_after_success (v : CohortFormView)
    (g : option ContentGroupModel) (saved : CohortAttributes)
    (result : value) :
  getSelectedContentGroup v = Ok g ->
  validate v (fieldData_of v g) = [] ->
  let v' := view_of (saveForm_session (Some (Success saved result)) v) in
  if no_body result then
    model v' = {| id := id (model v); attributes := saved |}
    /\ Forall (fun q => patch (snd q) = negb (is_undefined (id (model v))))
              (save_requests (events_of (saveForm v')))
  else
    exists id',
      get_property result "id" = Ok id'
      /\ model v' = {| id := id'; attributes := saved |}
      /\ Forall (fun q => patch (snd q) = negb (is_undefined id'))
                (save_requests (events_of (saveForm v'))).
Proof.
  intros G V. cbv zeta.
  destruct (session_success_view v g saved result G V) as (_ & _ & _ & _ & M).
  cbv zeta in M.
  set (v' := view_of (saveForm_session (Some (Success saved result)) v)) in *.
  assert (R : Forall (fun q => patch (snd q) = negb (is_undefined (id (model v'))))
                (save_requests (events_of (saveForm v')))).
  { rewrite saveForm_requests.
    destruct (getSelectedContentGroup v') as [g'|e]; [|constructor].
    destruct (validate v' (fieldData_of v' g')); repeat constructor. }
  destruct (no_body result).
  - destruct M as (M & _). rewrite M in R. split; [exact M | exact R].
  - destruct M as (x & E & M & _). rewrite M in R.
    exists x. repeat split; assumption.
Qed.

(** X13: the rendering that follows a successful save with a response body
    leaves no notification displayed inside the form, while the view goes
    on holding the notification it held; the controls are those of the new
    rendering.  When the body is [null] or absent there is no rendering:
    the controls stay as they are. *)
Theorem success_clears_messages (v : CohortFormView)
    (g : option ContentGroupModel) (saved : CohortAttributes)
    (result : value) :
  getSelectedContentGroup v = Ok g ->
  validate v (fieldData_of v g) = [] ->
  let v' := view_of (saveForm_session (Some (Success saved result)) v) in
  notification v' = notification v
  /\ contentGroups v' = contentGroups v
  /\ if no_body result then
       controls v' = controls v
       /\ displayed v' = displayed (view_of (removeNotification v))
     else
       Forall (fun d => snd d = Elsewhere) (displayed v')
       /\ (displays_current v -> displayed v' = [])
       /\ exists c, controls v' = template c /\ tc_cohort c = model v'.
Proof.
  intros G V. cbv zeta.
  destruct (session_success_view v g saved result G V)
    as (_ & CG & _ & N & M).
  cbv zeta in *. split; [exact N|]. split; [exact CG|].
  destruct (no_body result).
  - destruct M as (_ & D & C). split; assumption.
  - destruct M as (x & _ & M & D & c & C & T). rewrite D. repeat split.
    + apply Forall_forall. intros d I. apply filter_In in I as [_ I].
      destruct (snd d); [discriminate | reflexivity].
    + intro DC. now rewrite (removeNotification_clears v DC).
    + exists c. split; [exact C|]. now rewrite M.
Qed.

(** *** Select values written as decimal numerals *)

Lemma take_digits_uint (d : Decimal.uint) :
  take_digits 10 (DecimalString.NilEmpty.string_of_uint d) = digits_of_uint d.
Proof.
  induction d;
    cbn [DecimalString.NilEmpty.string_of_uint take_digits digits_of_uint];
    [reflexivity | ..]; rewrite <- IHd; reflexivity.
Qed.

Lemma digits_value_acc (d : Decimal.uint) (acc : positive) :
  fold_left (fun a x => a * 10 + x) (digits_of_uint d) (Zpos acc)
  = Zpos (Pos.of_uint_acc d acc).
Proof.
  revert acc. induction d; intro acc;
    cbn [digits_of_uint fold_left Pos.of_uint_acc]; [reflexivity | ..];
    rewrite <- IHd; f_equal; lia.
Qed.

Lemma digits_value_uint (d : Decimal.uint) :
  digits_value 10 (digits_of_uint d) = Z.of_N (Pos.of_uint d).
Proof.
  unfold digits_value.
  induction d; cbn [digits_of_uint fold_left Pos.of_uint];
    [reflexivity | exact IHd | ..];
    cbn [Z.mul Z.add Z.of_N]; apply digits_value_acc.
Qed.

Lemma string_of_uint_head (d : Decimal.uint) :
  d <> Decimal.Nil ->
  trim_start (DecimalString.NilEmpty.string_of_uint d)
    = DecimalString.NilEmpty.string_of_uint d
  /\ strip_sign (DecimalString.NilEmpty.string_of_uint d)
     = (1, DecimalString.NilEmpty.string_of_uint d)
  /\ strip_prefix (DecimalString.NilEmpty.string_of_uint d)
     = (10, DecimalString.NilEmpty.string_of_uint d)
  /\ digits_of_uint d <> [].
Proof.
  intro N. destruct d as [|l|l|l|l|l|l|l|l|l|l]; [congruence | ..];
    (repeat split; [destruct l; reflexivity | discriminate]).
Qed.

Lemma parseInt_uint (d : Decimal.uint) :
  d <> Decimal.Nil ->
  parseInt (DecimalString.NilEmpty.string_of_uint d)
    = number_value (Z.of_N (Pos.of_uint d))
  /\ parseInt (String "-" (DecimalString.NilEmpty.string_of_uint d))
     = number_value (- Z.of_N (Pos.of_uint d)).
Proof.
  intro N. destruct (string_of_uint_head d N) as (T & S & P & D).
  assert (E : forall sign,
            match take_digits 10 (DecimalString.NilEmpty.string_of_uint d) with
            | [] => VNaN
            | ds => number_value (sign * digits_value 10 ds)
            end = number_value (sign * Z.of_N (Pos.of_uint d))).
  { intro sign. rewrite take_digits_uint, <- digits_value_uint.
    destruct (digits_of_uint d); [congruence | reflexivity]. }
  split.
  - unfold parseInt. rewrite T, S, P, E. f_equal; lia.
  - unfold parseInt.
    change (trim_start (String "-" (DecimalString.NilEmpty.string_of_uint d)))
      with (String "-" (DecimalString.NilEmpty.string_of_uint d)).
    change (strip_sign (String "-" (DecimalString.NilEmpty.string_of_uint d)))
      with (-1, DecimalString.NilEmpty.string_of_uint d).
    cbv beta iota. rewrite P, E. f_equal; lia.
Qed.

Lemma decimal_pos (p : positive) :
  decimal (Zpos p) = DecimalString.NilEmpty.string_of_uint (Pos.to_uint p)
  /\ decimal (Zneg p)
     = String "-" (DecimalString.NilEmpty.string_of_uint (Pos.to_uint p)).
Proof.
  unfold decimal. cbn [Z.to_int DecimalString.NilZero.string_of_int].
  unfold DecimalString.NilZero.string_of_uint.
  pose proof (DecimalPos.Unsigned.to_uint_nonnil p) as N.
  destruct (Pos.to_uint p); [congruence | ..]; split; reflexivity.
Qed.

(** [parseInt] reads the decimal numeral of an integer as the Number
    value of the integer. *)
Lemma parseInt_decimal (n : Z) : parseInt (decimal n) = number_value n.
Proof.
  destruct n as [|p|p]; [reflexivity | |];
    destruct (decimal_pos p) as [P Q];
    destruct (parseInt_uint (Pos.to_uint p)
                (DecimalPos.Unsigned.to_uint_nonnil p)) as [A B];
    rewrite DecimalPos.Unsigned.of_to in A, B.
  - rewrite P. exact A.
  - rewrite Q. exact B.
Qed.

(** An integer of magnitude below 2^53 is its own Number value. *)
Lemma number_value_exact (n : Z) :
  Z.abs n < 2 ^ 53 -> number_value n = VNum n.
Proof.
  intro B. unfold number_value.
  assert (L : Z.log2 (Z.abs n) - 52 <= 0).
  { destruct (Z.eq_dec (Z.abs n) 0) as [-> | NZ]; [cbn; lia|].
    assert (Z.log2 (Z.abs n) < 53); [|lia].
    apply Z.log2_lt_pow2; lia. }
  apply Z.leb_le in L. now rewrite L.
Qed.

Lemma string_of_uint_colon (d : Decimal.uint) (r : string) :
  before_colon (DecimalString.NilEmpty.string_of_uint d ++ String ":" r)%string
    = DecimalString.NilEmpty.string_of_uint d
  /\ after_colon (DecimalString.NilEmpty.string_of_uint d ++ String ":" r)%string
     = Some r.
Proof.
  induction d as [|l [A B]|l [A B]|l [A B]|l [A B]|l [A B]|l [A B]|l [A B]
                  |l [A B]|l [A B]|l [A B]];
    cbn [DecimalString.NilEmpty.string_of_uint append before_colon after_colon];
    [split; reflexivity | ..];
    (split; [cbn; now rewrite A | cbn; exact B]).
Qed.

Lemma decimal_colon (n : Z) (r : string) :
  before_colon (decimal n ++ String ":" r)%string = decimal n
  /\ after_colon (decimal n ++ String ":" r)%string = Some r
  /\ (decimal n ++ String ":" r)%string <> "None".
Proof.
  destruct n as [|p|p]; [repeat split; discriminate | |];
    destruct (decimal_pos p) as [P Q];
    destruct (string_of_uint_colon (Pos.to_uint p) r) as [A B];
    pose proof (DecimalPos.Unsigned.to_uint_nonnil p) as N.
  - rewrite P. repeat split; auto.
    destruct (Pos.to_uint p); [congruence | ..]; discriminate.
  - rewrite Q. cbn [append before_colon after_colon].
    repeat split; [cbn; now rewrite A | cbn; exact B | discriminate].
Qed.

(** X14: for a select value written as the decimal numerals of two
    integers of magnitude below 2^53 joined by a colon,
    [getSelectedContentGroup] returns the first
    content group whose [id] is the first integer and whose
    [user_partition_id] is the second one, and [null] when [contentGroups]
    has no such group. *)
Theorem select_value_round_trip (v : CohortFormView) (a b : Z) :
  Z.abs a < 2 ^ 53 ->
  Z.abs b < 2 ^ 53 ->
  radio_yes_checked (controls v) = Some true ->
  group_association_val (controls v)
    = Some (decimal a ++ String ":" (decimal b))%string ->
  exists r,
    getSelectedContentGroup v = Ok r
    /\ first_such (fun g => cg_attr_id g = VNum a
                            /\ cg_attr_user_partition_id g = VNum b)
                  (contentGroups v) r.
Proof.
  clear gettext template JSON_parse.
  intros Ba Bb R S. destruct (decimal_colon a (decimal b)) as (A & B & N).
  set (s := (decimal a ++ String ":" (decimal b))%string) in *.
  unfold getSelectedContentGroup, hasAssociatedContentGroup.
  rewrite R, S. simpl truthy. simpl negb. cbn [orb].
  simpl of_string. simpl strict_eq.
  apply String.eqb_neq in N. rewrite N.
  destruct (selected_ids s) as [-> ->].
  unfold parsed_after_colon. rewrite A, B, !parseInt_decimal.
  rewrite (number_value_exact a Ba), (number_value_exact b Bb).
  eexists. split; [reflexivity|].
  eapply first_such_ext; [|apply find_content_group_first].
  intro g. cbv beta.
  assert (E : forall x n, strict_eq x (VNum n) = true <-> x = VNum n).
  { intros x n. destruct x; simpl; try (split; discriminate).
    rewrite Z.eqb_eq. split; congruence. }
  now rewrite !E.
Qed.

(** *** The name that is sent *)

Lemma trim_fixed (t : string) :
  starts_with_whitespace t = false ->
  ends_with_whitespace t = false ->
  trim t = t.
Proof.
  intros S E. unfold trim.
  assert (T : trim_start t = t) by (destruct t; simpl in *; now rewrite ?S).
  rewrite T. clear S T.
  induction t as [|c r IH]; [reflexivity|].
  simpl. destruct r as [|d r'].
  - simpl in *. now rewrite E.
  - rewrite IH; [reflexivity | exact E].
Qed.

(** X15: typing the name that [getUpdatedCohortName] returned for an input
    into the name input gives the same name again, provided that name is
    not empty. *)
Theorem name_reentered (v : CohortFormView) (input : string) :
  cohort_name_val (controls v) = Some input ->
  trim input <> "" ->
  getUpdatedCohortName v = Some (trim input)
  /\ getUpdatedCohortName (set_cohort_name_val (getUpdatedCohortName v) v)
     = getUpdatedCohortName v.
Proof.
  intros I N.
  assert (U : getUpdatedCohortName v = Some (trim input)).
  { unfold getUpdatedCohortName. rewrite I.
    destruct input as [|c r]; [now elim N|]. reflexivity. }
  split; [exact U|]. rewrite U.
  unfold getUpdatedCohortName, set_cohort_name_val.
  cbn [controls set_controls cohort_name_val].
  destruct (trim_spec input) as (pre & post & _ & _ & _ & S & E).
  rewrite (trim_fixed _ S E).
  destruct (trim input); [now elim N | reflexivity].
Qed.

(** *** The default cohort *)

(** X16: at most one name is the name of the default cohort: [isDefault]
    answers [true] for two names only when they are the same. *)
Theorem isDefault_unique (v : CohortFormView) (a b : option string) :
  isDefault v a = true -> isDefault v b = true -> a = b.
Proof.
  unfold isDefault. destruct (collection_models v) as [cohorts|];
    [|discriminate]. cbv zeta.
  destruct (where_assignment_type "random" cohorts) as [|c rest];
    [discriminate|].
  intros A B. apply andb_true_iff in A as [_ A], B as [_ B].
  apply loose_eq_string_eq in A, B. congruence.
Qed.

Lemma others_not_random (v : CohortFormView) (l : list member) :
  Forall other_not_random l ->
  where_assignment_type "random"
    (map (fun m => match m with This => model v | Other c => c end) l) = [].
Proof.
  induction 1 as [|m l H _ IH]; [reflexivity|].
  destruct m as [|c]; [contradiction|]. cbn.
  destruct (strict_eq _ _) eqn:E; [|exact IH].
  apply strict_eq_string in E. contradiction.
Qed.

(** X17: in a collection whose other cohorts have no random assignment,
    the form of a cohort with random assignment is the form of the default
    cohort: [isDefault] agrees with [isCohortExists] on every name, and
    [render] gives the template [isDefaultCohort] as [true]; the form of a
    cohort without random assignment has no default name. *)
Theorem sole_random_cohort_is_default (v : CohortFormView)
    (before after : list member) :
  collection v = Some (before ++ This :: after) ->
  Forall other_not_random before ->
  Forall other_not_random after ->
  (is_random (model v) ->
   (forall n, isDefault v n = isCohortExists v n)
   /\ exists c,
        events_of (render v) = [FormRendered c]
        /\ tc_cohort c = model v
        /\ tc_isDefaultCohort c = true)
  /\ (~ is_random (model v) -> forall n, isDefault v n = false).
Proof.
  intros C B A.
  assert (W : where_assignment_type "random"
                (map (fun m => match m with This => model v | Other c => c end)
                     (before ++ This :: after))
              = if strict_eq (of_string (assignment_type (attributes (model v))))
                     (VStr "random")
                then [model v] else []).
  { pose proof (others_not_random v before B) as WB.
    pose proof (others_not_random v after A) as WA.
    unfold where_assignment_type in *. rewrite map_app, filter_app, WB.
    cbn [map filter app]. rewrite WA. reflexivity. }
  split.
  - intro R. apply strict_eq_string in R.
    assert (D : forall n, isDefault v n = isCohortExists v n).
    { intro n. unfold isDefault, isCohortExists, collection_models.
      rewrite C. cbv zeta. rewrite W, R. reflexivity. }
    split; [exact D|].
    unfold render. run_methods. eexists. split; [reflexivity|].
    cbn [tc_cohort tc_isDefaultCohort]. split; [reflexivity|].
    rewrite D. unfold isCohortExists. now apply loose_eq_string_eq.
  - intros R n. unfold isDefault, collection_models. rewrite C. cbv zeta.
    rewrite W. destruct (strict_eq _ _) eqn:E; [|reflexivity].
    apply strict_eq_string in E. contradiction.
Qed.

(** *** The radio buttons *)

(** X18: [onRadioButtonChange] leaves the select enabled exactly when the
    value of the changed radio button is 'yes', and then keeps its
    selection.  For any other value it disables the select and selects the
    option 'None' when the select has one, after which
    [getSelectedContentGroup] returns [null] whatever the state of the
    radio buttons.  A form without the select is left as it is. *)
Theorem onRadioButtonChange_spec (target_val : option string) :
  onRadioButtonChange target_val None = None
  /\ forall s, exists s',
       onRadioButtonChange target_val (Some s) = Some s'
       /\ select_options s' = select_options s
       /\ (select_disabled s' = false <-> target_val = Some "yes")
       /\ (target_val = Some "yes" -> select_value s' = select_value s)
       /\ (target_val <> Some "yes" ->
           In "None" (select_options s) ->
           select_value s' = Some "None"
           /\ forall v, group_association_val (controls v) = val_of (Some s') ->
                        getSelectedContentGroup v = Ok None).
Proof.
  clear gettext template JSON_parse.
  unfold onRadioButtonChange.
  destruct (strict_eq (of_string target_val) (VStr "yes")) eqn:Y.
  - apply strict_eq_string in Y. split; [reflexivity|].
    intro s. eexists. split; [reflexivity|]. cbn.
    repeat split; auto; congruence.
  - assert (N : target_val <> Some "yes")
      by (intro E; apply strict_eq_string in E; congruence).
    split; [reflexivity|]. intro s.
    exists (set_disabled true (set_val "None" s)). split; [reflexivity|].
    cbn [set_val set_disabled select_options select_value select_disabled
         val_of].
    split; [reflexivity|]. split; [split; [discriminate | congruence]|].
    split; [congruence|]. intros _ I.
    assert (E : existsb (String.eqb "None") (select_options s) = true)
      by (apply existsb_exists; exists "None"; split;
          [exact I | apply String.eqb_refl]).
    rewrite E. split; [reflexivity|]. intros v H.
    unfold getSelectedContentGroup. rewrite H.
    change (strict_eq (of_string (Some "None")) (VStr "None")) with true.
    now rewrite orb_true_r.
Qed.

End Methods.

(** ** The theorems on the example forms *)

Example parseInt_examples :
  parseInt "12" = VNum 12
  /\ parseInt " -7px" = VNum (-7)
  /\ parseInt "0x1f" = VNum 31
  /\ parseInt "" = VNaN
  /\ parseInt (string_arg None) = VNaN.
Proof. repeat split. Qed.

(** Numerals beyond 2^53 are read as the nearest double, and as an
    infinity beyond the largest double. *)
Example parseInt_rounding_examples :
  parseInt "9007199254740993" = VNum 9007199254740992
  /\ parseInt "-9007199254740995" = VNum (-9007199254740996)
  /\ parseInt "0x20000000000001" = VNum 9007199254740992
  /\ number_value (2 ^ 1024 - 2 ^ 970 - 1) = VNum (2 ^ 1024 - 2 ^ 971)
  /\ number_value (2 ^ 1024 - 2 ^ 970) = VInfinity false
  /\ number_value (- 10 ^ 400) = VInfinity true.
Proof. vm_compute. repeat split. Qed.

(** A select value whose first numeral rounds to 2^53 selects the content
    group with that id. *)
Example getSelectedContentGroup_rounding :
  let g := {| cg_id := VNum 9007199254740992;
              cg_attr_id := VNum 9007199254740992;
              cg_attr_user_partition_id := VNum 5 |} in
  getSelectedContentGroup
    {| model := model example_view; collection := None;
       contentGroups := [g]; context := "";
       controls := {| radio_yes_checked := Some true;
                      group_association_val := Some "9007199254740993:5";
                      cohort_name_val := Some "Group A";
                      assignment_type_val := Some "manual";
                      has_form_fields := true |};
       notification := None; displayed := []; fresh := 0%nat |}
  = Ok (Some g).
Proof. vm_compute. reflexivity. Qed.

Example split_examples :
  split ":" "2:5" = ["2"; "5"]
  /\ split ":" "None" = ["None"]
  /\ split ":" "" = [""]
  /\ split ":" "1:2:3" = ["1"; "2"; "3"].
Proof. repeat split. Qed.

Example trim_examples :
  trim " Group A " = "Group A" /\ trim "   " = "" /\ trim "" = "".
Proof. repeat split. Qed.

(** The example form is valid: one request that creates the cohort, and a
    pending promise. *)
Example saveForm_example :
  let fieldData := {| fd_name := VStr "Group A"; fd_group_id := VNum 2;
                      fd_user_partition_id := VNum 5;
                      fd_assignment_type := VStr "manual" |} in
  let options := {| patch := false; wait := true |} in
  saveForm example_gettext example_view =
  (example_view, [SaveRequested fieldData options],
   Ok {| promise := Pending; awaiting := Some (fieldData, options) |}).
Proof. reflexivity. Qed.

(** The form without a name and without a selected group: two messages,
    no request. *)
Example validate_example :
  validate example_gettext example_invalid_view
    (fieldData_of example_invalid_view None) =
  ["You must specify a name for the cohort";
   "You did not select a content group"].
Proof. reflexivity. Qed.

(** A form whose radio button 'yes' is checked while it has no select. *)
Example saveForm_without_select :
  let v := set_controls
             {| radio_yes_checked := Some true; group_association_val := None;
                cohort_name_val := Some "Group A";
                assignment_type_val := Some "manual"; has_form_fields := true |}
             example_view in
  saveForm example_gettext v = (v, [], Throw TypeError).
Proof. reflexivity. Qed.

Lemma isDefault_iff_witness :
  collection example_view = None
  /\ isDefault example_view (Some "Default Group") = false
  /\ isDefault example_default_view (Some "Default Group") = true.
Proof.
  split; [reflexivity|]. split.
  - apply (proj2 (isDefault_iff example_view (Some "Default Group"))).
    reflexivity.
  - apply (proj1 (isDefault_iff example_default_view (Some "Default Group"))).
    exists [model example_default_view;
            {| id := VNum 2;
               attributes := {| name := Some "Group A";
                                assignment_type := Some "manual" |} |}],
           (model example_default_view), [],
           [{| id := VNum 2;
               attributes := {| name := Some "Group A";
                                assignment_type := Some "manual" |} |}].
    repeat split; try reflexivity; repeat constructor.
    unfold is_random. simpl. discriminate.
Defined.

Lemma getSelectedContentGroup_spec_witness :
  group_association_val (controls example_view) = Some "2:5"
  /\ radio_yes_checked (controls example_view) = Some true
  /\ exists r,
       getSelectedContentGroup example_view = Ok r
       /\ first_such
            (fun g => equals_parsed (cg_attr_id g) (parseInt (before_colon "2:5"))
                      /\ equals_parsed (cg_attr_user_partition_id g)
                                       (parsed_after_colon "2:5"))
            (contentGroups example_view) r.
Proof.
  split; [reflexivity|]. split; [reflexivity|].
  destruct (proj2 (getSelectedContentGroup_spec example_view) "2:5" eq_refl)
    as (r & E & _ & F).
  exists r. split; [exact E|].
  apply F; [reflexivity | discriminate].
Defined.

Lemma one_notification_at_a_time_witness :
  displays_current example_view
  /\ notification example_view = None
  /\ removeNotification example_view = (example_view, [], Ok tt)
  /\ displayed
       (view_of
          (showNotification
             {| n_type := "confirmation"; n_title := VStr "Saved cohort";
                n_details := None |}
             (Some InsideForm) example_view))
     = [(0%nat, InsideForm)].
Proof.
  assert (D : displays_current example_view) by (left; reflexivity).
  split; [exact D|]. split; [reflexivity|].
  destruct (one_notification_at_a_time example_gettext example_template
              example_JSON_parse) as (_ & S & R).
  split.
  - apply R. reflexivity.
  - exact (proj2 (proj2 (S _ (Some InsideForm) example_view D))).
Defined.

Lemma saveForm_rejects_invalid_witness :
  getSelectedContentGroup example_invalid_view = Ok None
  /\ validate example_gettext example_invalid_view
       (fieldData_of example_invalid_view None) <> []
  /\ save_requests (events_of (saveForm example_gettext example_invalid_view)) = []
  /\ settlements (events_of (saveForm example_gettext example_invalid_view))
     = [PromiseRejected]
  /\ outcome_of (saveForm example_gettext example_invalid_view)
     = Ok {| promise := Rejected; awaiting := None |}.
Proof.
  assert (G : getSelectedContentGroup example_invalid_view = Ok None)
    by reflexivity.
  assert (V : validate example_gettext example_invalid_view
                (fieldData_of example_invalid_view None) <> [])
    by (vm_compute; discriminate).
  destruct (proj1 (saveForm_rejects_invalid example_gettext example_invalid_view)
              None G V) as (A & _ & B & C).
  repeat split; assumption.
Defined.

Lemma save_failure_shows_error_witness :
  getSelectedContentGroup example_view = Ok (Some example_group_2)
  /\ validate example_gettext example_view
       (fieldData_of example_view (Some example_group_2)) = []
  /\ let r := saveForm_session example_gettext example_template
                example_JSON_parse
                (Some (Failure (Some "{error: name taken}"))) example_view in
     (exists n, notification (view_of r) = Some n
                /\ n_type (nv_model n) = "error"
                /\ n_title (nv_model n) = VStr "name taken")
     /\ settlements (events_of r) = [PromiseRejected]
     /\ outcome_of r = Ok {| promise := Rejected; awaiting := None |}.
Proof.
  assert (G : getSelectedContentGroup example_view = Ok (Some example_group_2))
    by reflexivity.
  assert (V : validate example_gettext example_view
                (fieldData_of example_view (Some example_group_2)) = [])
    by reflexivity.
  split; [exact G|]. split; [exact V|].
  destruct (save_failure_shows_error example_gettext example_template
              example_JSON_parse example_view (Some example_group_2)
              (Some "{error: name taken}") G V)
    as ((n & N & T & E & _) & S & O).
  split; [|split; assumption].
  exists n. repeat split; assumption.
Defined.

Lemma saveForm_settles_once_witness :
  getSelectedContentGroup example_view = Ok (Some example_group_2)
  /\ let r := saveForm_session example_gettext example_template
                example_JSON_parse
                (Some (Success {| name := Some "Group A";
                                  assignment_type := Some "manual" |}
                               (VObject [("id", VNum 7)])))
                example_view in
     settlements (events_of r) = [PromiseResolved]
     /\ outcome_of r = Ok {| promise := Resolved; awaiting := None |}
     /\ get_property (VObject [("id", VNum 7)]) "id" = Ok (id (model (view_of r))).
Proof.
  assert (G : getSelectedContentGroup example_view = Ok (Some example_group_2))
    by reflexivity.
  split; [exact G|]. cbv zeta.
  pose proof (proj2 (proj2 (proj2 (saveForm_settles_once example_gettext
                example_template example_JSON_parse example_view
                (Some example_group_2) G)
              (Success {| name := Some "Group A";
                          assignment_type := Some "manual" |}
                       (VObject [("id", VNum 7)]))))
              : settlements _ = [PromiseResolved] /\ _ /\ _ /\ _) as H.
  destruct H as (S & O & I & _).
  split; [exact S|]. split; [exact O | exact I].
Defined.

(** A successful save whose response has the body [null]: the request was
    sent and a pending promise returned, and the handler raises without
    settling the promise. *)
Lemma saveForm_settles_once_counterexample :
  let r := saveForm_session example_gettext example_template
             example_JSON_parse
             (Some (Success {| name := Some "Group A";
                               assignment_type := Some "manual" |} VNull))
             example_view in
  (exists op, outcome_of (saveForm example_gettext example_view) = Ok op
              /\ promise op = Pending
              /\ awaiting op <> None)
  /\ settlements (events_of r) = []
  /\ settlements (events_of r) <> [PromiseResolved]
  /\ outcome_of r = Throw TypeError.
Proof.
  cbv zeta. split.
  - eexists. split; [reflexivity|]. split; [reflexivity | discriminate].
  - split; [reflexivity|]. split; [discriminate | reflexivity].
Qed.

Lemma saveForm_patch_iff_update_witness :
  getSelectedContentGroup example_view = Ok (Some example_group_2)
  /\ validate example_gettext example_view
       (fieldData_of example_view (Some example_group_2)) = []
  /\ (exists options,
        save_requests
          (events_of (saveForm_session example_gettext example_template
                        example_JSON_parse None example_view))
        = [(fieldData_of example_view (Some example_group_2), options)]
        /\ patch options = false)
  /\ (exists options,
        save_requests
          (events_of (saveForm_session example_gettext example_template
                        example_JSON_parse None example_existing_view))
        = [(fieldData_of example_existing_view (Some example_group_2), options)]
        /\ patch options = true).
Proof.
  split; [reflexivity|]. split; [reflexivity|]. split.
  - destruct (proj2 (proj2 (saveForm_patch_iff_update example_gettext
                example_template example_JSON_parse example_view None))
              (Some example_group_2) eq_refl eq_refl)
      as (o & R & _ & _ & P).
    exists o. split; [exact R | apply P; reflexivity].
  - destruct (proj2 (proj2 (saveForm_patch_iff_update example_gettext
                example_template example_JSON_parse example_existing_view None))
              (Some example_group_2) eq_refl eq_refl)
      as (o & R & _ & P & _).
    exists o. split; [exact R | apply P; discriminate].
Defined.

(** ** The further properties on the example forms *)

Lemma saveForm_throws_witness :
  radio_yes_checked (controls example_view_without_select) = Some true
  /\ group_association_val (controls example_view_without_select) = None
  /\ outcome_of (saveForm example_gettext example_view_without_select)
     = Throw TypeError
  /\ save_requests
       (events_of (saveForm example_gettext example_view_without_select)) = []
  /\ settlements
       (events_of (saveForm example_gettext example_view_without_select)) = [].
Proof.
  destruct (saveForm_throws example_gettext example_view_without_select)
    as [T E].
  assert (X : outcome_of (saveForm example_gettext example_view_without_select)
              = Throw TypeError)
    by (apply T; split; reflexivity).
  destruct (E X) as (_ & Q & S & _).
  repeat split; assumption.
Defined.

Lemma failed_save_keeps_model_witness :
  same_reads example_view
    (view_of (saveForm_session example_gettext example_template
                example_JSON_parse (Some (Failure (Some "{}"))) example_view)).
Proof.
  apply failed_save_keeps_model. right. left. exists (Some "{}"). reflexivity.
Defined.

Lemma displayed_notification_is_held_witness :
  let v := run example_gettext example_template example_JSON_parse
             example_new_view
             [CallRender; CallShowMessage (VStr "Saved cohort") None None] in
  In (0%nat, InsideForm) (displayed v)
  /\ exists n, notification v = Some n
               /\ nv_ref n = 0%nat
               /\ displayed v = [(0%nat, InsideForm)].
Proof.
  cbv zeta.
  assert (I : In (0%nat, InsideForm)
                (displayed
                   (run example_gettext example_template example_JSON_parse
                      (initialize (model example_default_view) None []
                         "/group_configurations")
                      [CallRender;
                       CallShowMessage (VStr "Saved cohort") None None])))
    by (left; reflexivity).
  split; [exact I|].
  exact (displayed_notification_is_held example_gettext example_template
           example_JSON_parse _ _ _ _ _ _ I).
Defined.

Lemma save_request_group_witness :
  let q := ({| fd_name := VStr "Group A"; fd_group_id := VNum 2;
               fd_user_partition_id := VNum 5;
               fd_assignment_type := VStr "manual" |},
            {| patch := false; wait := true |}) in
  In q (save_requests (events_of (saveForm example_gettext example_view)))
  /\ exists s g,
       group_association_val (controls example_view) = Some s
       /\ s <> "None"
       /\ In g (contentGroups example_view)
       /\ named_by s g
       /\ fd_group_id (fst q) = cg_id g
       /\ cg_id g <> VNull
       /\ fd_user_partition_id (fst q) = cg_attr_user_partition_id g.
Proof.
  cbv zeta.
  assert (I : In ({| fd_name := VStr "Group A"; fd_group_id := VNum 2;
                     fd_user_partition_id := VNum 5;
                     fd_assignment_type := VStr "manual" |},
                  {| patch := false; wait := true |})
                (save_requests
                   (events_of (saveForm example_gettext example_view))))
    by (left; reflexivity).
  split; [exact I|].
  exact (proj2 (save_request_group example_gettext example_view _ I) eq_refl).
Defined.

Lemma save_request_name_witness :
  let q := ({| fd_name := VStr "Group A"; fd_group_id := VNum 2;
               fd_user_partition_id := VNum 5;
               fd_assignment_type := VStr "manual" |},
            {| patch := false; wait := true |}) in
  In q (save_requests (events_of (saveForm example_gettext example_view)))
  /\ exists s, fd_name (fst q) = VStr s /\ s <> "" /\ s = trim " Group A ".
Proof.
  cbv zeta.
  assert (I : In ({| fd_name := VStr "Group A"; fd_group_id := VNum 2;
                     fd_user_partition_id := VNum 5;
                     fd_assignment_type := VStr "manual" |},
                  {| patch := false; wait := true |})
                (save_requests
                   (events_of (saveForm example_gettext example_view))))
    by (left; reflexivity).
  split; [exact I|].
  destruct (save_request_name example_gettext example_view _ I)
    as (s & A & B & C & _).
  exists s. repeat split; assumption.
Defined.

Lemma blank_name_rejected_witness :
  cohort_name_val (controls example_blank_view) = Some "   "
  /\ all_whitespace "   "
  /\ getUpdatedCohortName example_blank_view = Some ""
  /\ save_requests (events_of (saveForm example_gettext example_blank_view)) = [].
Proof.
  assert (W : all_whitespace "   ") by (repeat constructor).
  assert (N : "   " <> "") by discriminate.
  destruct (blank_name_rejected example_gettext example_blank_view "   "
              eq_refl N W) as (A & B & _).
  repeat split; assumption.
Defined.

Lemma group_message_witness :
  getSelectedContentGroup example_unknown_group_view = Ok None
  /\ (forall x, In x (contentGroups example_unknown_group_view) ->
                cg_id x <> VNull)
  /\ validate example_gettext example_unknown_group_view
       (fieldData_of example_unknown_group_view None)
     = ["The selected content group does not exist"].
Proof.
  assert (I : forall x, In x (contentGroups example_unknown_group_view) ->
                        cg_id x <> VNull)
    by (intros x [<- | [<- | []]]; discriminate).
  split; [reflexivity|]. split; [exact I|].
  exact (proj1 (group_message example_gettext example_unknown_group_view
                  "9:5" None eq_refl eq_refl I eq_refl)).
Defined.

Lemma saveForm_without_controls_witness :
  controls example_new_view = no_controls
  /\ save_requests (events_of (saveForm example_gettext example_new_view))
     = [({| fd_name := VStr "Default Group"; fd_group_id := VNull;
            fd_user_partition_id := VNull; fd_assignment_type := VUndefined |},
         {| patch := true; wait := true |})].
Proof.
  split; [reflexivity|].
  exact (proj1 (proj1 (saveForm_without_controls example_gettext
                         example_new_view eq_refl) eq_refl)).
Defined.

Lemma showMessage_without_form_fields_witness :
  has_form_fields (controls example_new_view) = false
  /\ displays_current example_new_view
  /\ displayed
       (view_of (showMessage (VStr "Saved cohort") None None example_new_view))
     = [].
Proof.
  assert (D : displays_current example_new_view) by (left; reflexivity).
  split; [reflexivity|]. split; [exact D|].
  exact (proj1 (showMessage_without_form_fields (VStr "Saved cohort") None None
                  example_new_view eq_refl D)).
Defined.

Lemma next_save_after_success_witness :
  getSelectedContentGroup example_view = Ok (Some example_group_2)
  /\ validate example_gettext example_view
       (fieldData_of example_view (Some example_group_2)) = []
  /\ let v' := view_of
                 (saveForm_session example_gettext example_template
                    example_JSON_parse
                    (Some (Success {| name := Some "Group A";
                                      assignment_type := Some "manual" |}
                                   (VObject [("id", VNum 7)])))
                    example_view) in
     exists id',
       get_property (VObject [("id", VNum 7)]) "id" = Ok id'
       /\ model v' = {| id := id';
                        attributes := {| name := Some "Group A";
                                         assignment_type := Some "manual" |} |}
       /\ Forall (fun q => patch (snd q) = negb (is_undefined id'))
                 (save_requests (events_of (saveForm example_gettext v'))).
Proof.
  split; [reflexivity|]. split; [reflexivity|]. cbv zeta.
  exact (next_save_after_success example_gettext example_template
           example_JSON_parse example_view (Some example_group_2)
           {| name := Some "Group A"; assignment_type := Some "manual" |}
           (VObject [("id", VNum 7)]) eq_refl eq_refl).
Defined.

Lemma success_clears_messages_witness :
  getSelectedContentGroup example_view = Ok (Some example_group_2)
  /\ validate example_gettext example_view
       (fieldData_of example_view (Some example_group_2)) = []
  /\ Forall (fun d => snd d = Elsewhere)
       (displayed
          (view_of
             (saveForm_session example_gettext example_template
                example_JSON_parse
                (Some (Success {| name := Some "Group A";
                                  assignment_type := Some "manual" |}
                               (VObject [("id", VNum 7)])))
                example_view))).
Proof.
  split; [reflexivity|]. split; [reflexivity|].
  pose proof (success_clears_messages example_gettext example_template
                example_JSON_parse example_view (Some example_group_2)
                {| name := Some "Group A"; assignment_type := Some "manual" |}
                (VObject [("id", VNum 7)]) eq_refl eq_refl) as H.
  cbv zeta in H. cbn [no_body] in H. exact (proj1 (proj2 (proj2 H))).
Defined.

Lemma select_value_round_trip_witness :
  radio_yes_checked (controls example_view) = Some true
  /\ group_association_val (controls example_view)
     = Some (decimal 2 ++ String ":" (decimal 5))%string
  /\ exists r,
       getSelectedContentGroup example_view = Ok r
       /\ first_such (fun g => cg_attr_id g = VNum 2
                               /\ cg_attr_user_partition_id g = VNum 5)
                     (contentGroups example_view) r.
Proof.
  split; [reflexivity|]. split; [reflexivity|].
  exact (select_value_round_trip example_view 2 5 eq_refl eq_refl
           eq_refl eq_refl).
Defined.

Lemma name_reentered_witness :
  cohort_name_val (controls example_view) = Some " Group A "
  /\ trim " Group A " <> ""
  /\ getUpdatedCohortName example_view = Some "Group A"
  /\ getUpdatedCohortName
       (set_cohort_name_val (getUpdatedCohortName example_view) example_view)
     = getUpdatedCohortName example_view.
Proof.
  assert (N : trim " Group A " <> "") by (vm_compute; discriminate).
  split; [reflexivity|]. split; [exact N|].
  exact (name_reentered example_view " Group A " eq_refl N).
Defined.

Lemma isDefault_unique_witness :
  isDefault example_default_view (Some "Default Group") = true
  /\ isDefault example_default_view (name (attributes (model example_default_view)))
     = true
  /\ Some "Default Group" = name (attributes (model example_default_view)).
Proof.
  split; [reflexivity|]. split; [reflexivity|].
  exact (isDefault_unique example_default_view (Some "Default Group")
           (name (attributes (model example_default_view))) eq_refl eq_refl).
Defined.

Lemma sole_random_cohort_is_default_witness :
  is_random (model example_default_view)
  /\ (forall n, isDefault example_default_view n
                = isCohortExists example_default_view n)
  /\ exists c,
       events_of (render example_template example_default_view)
       = [FormRendered c]
       /\ tc_cohort c = model example_default_view
       /\ tc_isDefaultCohort c = true.
Proof.
  assert (R : is_random (model example_default_view)) by reflexivity.
  split; [exact R|].
  refine (proj1 (sole_random_cohort_is_default example_template
                   example_default_view []
                   [Other {| id := VNum 2;
                             attributes := {| name := Some "Group A";
                                              assignment_type := Some "manual" |} |}]
                   eq_refl _ _) R).
  - constructor.
  - repeat constructor. unfold is_random. simpl. discriminate.
Defined.
